(** * Sensorhub: a shallow embedding of [src/code/main.py]

    The program runs two threads over one shared [DataSet]:
    - [SensorDataCollector] samples three I2C sensors once a second and
      filters the four scalar readings against a memo of the last reported
      value ([getSensorData]);
    - [SensorDataUploader] starts the cloud client, waits for it to be
      ready, and then once a second assembles a telemetry payload from the
      data set and sends it, with location reports on slower cadences.

    Sensor readings are Python floats; they are modelled as IEEE 754
    binary64 numbers with the Standard Library's [SpecFloat], so that
    [abs(v - prev)] is rounded as Python rounds it.  A driver call that raises is modelled by [None];
    a client call that raises by [Raise].  Log lines, sleeps, lock
    operations and client calls are recorded as events. *)

From Stdlib Require Import ZArith QArith Qabs List String Bool Lia.
From Stdlib Require Import Floats.SpecFloat.
Import ListNotations.

(** ** The shared data set ([class DataSet]) *)

(** A Python [float]: an IEEE 754 binary64 number. *)
Definition pyfloat := spec_float.

(** The binary64 number [m * 2^e], rounded to nearest when it is not
    representable (used to write float constants). *)
Definition f64 (m : positive) (e : Z) : pyfloat := binary_round 53 1024 false m e.

(** Python [x - y] and [abs] on floats. *)
Definition f64_sub (x y : pyfloat) : pyfloat := SFsub 53 1024 x y.
Definition f64_abs (x : pyfloat) : pyfloat := SFabs x.

(** Python [x > 1] for a float [x]: the int [1] compares as the float
    [1.0], which is exact. *)
Definition f64_gt1 (x : pyfloat) : bool := SFltb (SFone 53 1024) x.

(** A Python attribute that holds either [None] or a number. *)
Definition pynum := option pyfloat.

Record DataSet := mkDataSet {
  temp1 : pynum;
  humi : pynum;
  press : pynum;
  temp2 : pynum;
  rgb888 : Z
}.

(** [DataSet.__init__]: every field starts at [0] (not [None]); the int [0]
    is the number zero, equal in Python to the float [0.0]. *)
Definition DataSet_init : DataSet :=
  mkDataSet (Some (S754_zero false)) (Some (S754_zero false))
    (Some (S754_zero false)) (Some (S754_zero false)) 0.

(** A value of the telemetry payload dictionary: a number, or the nested
    colour dictionary [{1: r, 2: g, 3: b}]. *)
Inductive pval :=
| PNum (q : pyfloat)
| PDict (d : list (Z * Z)).

(** A Python [dict] with integer keys, as a list of entries with distinct
    keys.  The statements below read a dictionary by key ([dict_get]); the
    order of the list is not a property of the program (the MicroPython
    [dict] the code runs on does not keep insertion order). *)
Definition payload := list (Z * pval).

(** Events observable from either thread. *)
Inductive exn :=
| NameError          (* a local variable read before assignment *)
| ClientError.       (* an exception raised by the cloud client *)

Inductive event :=
| EAcquire                          (* [with data_set:] enter *)
| ERelease                          (* [with data_set:] exit *)
| ESleep                            (* [utime.sleep(1)] *)
| ELogInfo (msg : string)
| ELogError (msg : string)
| EPrint (e : exn)                  (* [print(e)] in an except clause *)
| EShow (d : DataSet)               (* [data_set.dataShow()] *)
| EStart                            (* [qth_client.start()] *)
| ECallStatus                       (* [qth_client.isStatusOk()] *)
| ECallLbs                          (* [qth_client.sendLbs()] *)
| ECallGnss                         (* [qth_client.sendGnss()] *)
| ECallTsl (profile : Z) (data : payload)  (* [qth_client.sendTsl(1, data)] *).

(** ** [SensorDataCollector] *)

Record Collector := mkCollector {
  data_set : DataSet;
  prev_temp1 : pynum;
  prev_humi : pynum;
  prev_temp2 : pynum;
  prev_press : pynum
}.

(** [SensorDataCollector.__init__]: every memo starts at [None]. *)
Definition Collector_init (ds : DataSet) : Collector :=
  mkCollector ds None None None None.

(** One filtered metric, lines 61-64 (and 65-68, 75-78, 80-83):
<<
    if prev is None or abs(v - prev) > 1:
        field = prev = v
    else:
        field = None
>>
    returns the new value of the data-set field and of the memo. *)
Definition change_filter (v : pyfloat) (prev : pynum) : pynum * pynum :=
  match prev with
  | None => (Some v, Some v)
  | Some p =>
      if f64_gt1 (f64_abs (f64_sub v p)) then (Some v, Some v) else (None, prev)
  end.

(** [SensorDataCollector.getSensorData], lines 57-93.  [rA] is the result of
    [shtc3.getTempAndHumi()] (temperature, humidity), [rB] that of
    [lps22hb.getTempAndPressure()] (pressure, temperature), [rC] that of
    [tcs34725.getRGBValue()]; [None] stands for a raised exception. *)
Definition getSensorData (rA rB : option (pyfloat * pyfloat)) (rC : option Z)
    (c : Collector) : Collector * list event :=
  (* shtc3 block *)
  let '(c1, evA) :=
    match rA with
    | Some (t1, h) =>
        let '(f_t1, p_t1) := change_filter t1 (prev_temp1 c) in
        let '(f_h, p_h) := change_filter h (prev_humi c) in
        let d := data_set c in
        (mkCollector (mkDataSet f_t1 f_h (press d) (temp2 d) (rgb888 d))
           p_t1 p_h (prev_temp2 c) (prev_press c), [])
    | None => (c, [ELogError "shtc3 get sensor data failed"%string])
    end in
  (* lps22hb block *)
  let '(c2, evB) :=
    match rB with
    | Some (p, t2) =>
        let '(f_t2, p_t2) := change_filter t2 (prev_temp2 c1) in
        let '(f_p, p_p) := change_filter p (prev_press c1) in
        let d := data_set c1 in
        (mkCollector (mkDataSet (temp1 d) (humi d) f_p f_t2 (rgb888 d))
           (prev_temp1 c1) (prev_humi c1) p_t2 p_p, [])
    | None => (c1, [ELogError "lps22hb get sensor data failed"%string])
    end in
  (* tcs34725 block *)
  let '(c3, evC) :=
    match rC with
    | Some rgb =>
        let d := data_set c2 in
        (mkCollector (mkDataSet (temp1 d) (humi d) (press d) (temp2 d) rgb)
           (prev_temp1 c2) (prev_humi c2) (prev_temp2 c2) (prev_press c2), [])
    | None => (c2, [ELogError "tcs34725 get sensor data failed"%string])
    end in
  (c3, [EAcquire] ++ evA ++ evB ++ evC ++ [EShow (data_set c3); ERelease]).

(** [SensorDataCollector.__call__], lines 51-55: [while True:
    getSensorData(); sleep(1)], run for [fuel] iterations.  The driver
    replies of iteration [i] are [sA i], [sB i], [sC i]. *)
Fixpoint collector_loop (sA sB : nat -> option (pyfloat * pyfloat)) (sC : nat -> option Z)
    (i fuel : nat) (c : Collector) : Collector * list event :=
  match fuel with
  | O => (c, [])
  | S fuel' =>
      let '(c1, ev1) := getSensorData (sA i) (sB i) (sC i) c in
      let '(c2, ev2) := collector_loop sA sB sC (S i) fuel' c1 in
      (c2, ev1 ++ [ESleep] ++ ev2)
  end.

(** ** [SensorDataUploader] *)

(** The reply of one client call: a returned boolean, or a raised exception. *)
Inductive reply :=
| Reply (b : bool)
| Raise.

(** The cloud client [QthClient], as the sequence of its replies: the
    [n]-th call of each operation gets the [n]-th reply, and the [n]-th call
    of [utime.ticks_ms()] returns [r_ticks n]. *)
Record Client := mkClient {
  r_status : nat -> reply;
  r_lbs : nat -> reply;
  r_gnss : nat -> reply;
  r_tsl : nat -> reply;
  r_ticks : nat -> Z
}.

(** The state the upload thread sees: the shared data set, the local
    variable [data] of [__call__] ([None] while unbound), and how many times
    each client operation has been called. *)
Record UState := mkUState {
  u_ds : DataSet;
  u_data : option payload;
  n_status : nat;
  n_lbs : nat;
  n_gnss : nat;
  n_tsl : nat;
  n_ticks : nat
}.

(** At the start of [__call__] the local [data] is unbound. *)
Definition UState_init (ds : DataSet) : UState :=
  mkUState ds None 0 0 0 0 0.

Inductive res (A : Type) :=
| Ok (a : A)
| Err (e : exn).
Arguments Ok {A} a.
Arguments Err {A} e.

(** State, trace and exceptions. *)
Definition M (A : Type) := UState -> UState * list event * res A.

Definition ret {A} (a : A) : M A := fun s => (s, [], Ok a).

Definition bind {A B} (m : M A) (k : A -> M B) : M B :=
  fun s =>
    match m s with
    | (s1, ev1, Ok a) =>
        let '(s2, ev2, r) := k a s1 in (s2, ev1 ++ ev2, r)
    | (s1, ev1, Err e) => (s1, ev1, Err e)
    end.

Notation "x <- m ;; k" := (bind m (fun x => k))
  (at level 61, m at next level, right associativity).
Notation "m ;; k" := (bind m (fun _ => k))
  (at level 61, right associativity).

Definition emit (e : event) : M unit := fun s => (s, [e], Ok tt).

Definition sleep1 : M unit := emit ESleep.

(** [try: m except Exception as e: h e] *)
Definition try_except (m : M unit) (h : exn -> M unit) : M unit :=
  fun s =>
    match m s with
    | (s1, ev1, Ok a) => (s1, ev1, Ok a)
    | (s1, ev1, Err e) => let '(s2, ev2, r) := h e s1 in (s2, ev1 ++ ev2, r)
    end.

Definition get : M UState := fun s => (s, [], Ok s).

Definition set_data (d : option payload) : M unit :=
  fun s => (mkUState (u_ds s) d (n_status s) (n_lbs s) (n_gnss s) (n_tsl s)
              (n_ticks s), [], Ok tt).

(** Reading the local [data]: [NameError] while it is unbound. *)
Definition read_data : M payload :=
  fun s => match u_data s with
           | Some d => (s, [], Ok d)
           | None => (s, [], Err NameError)
           end.

Section Calls.
Variable cl : Client.

Definition of_reply (s : UState) (ev : event) (r : reply) :
    UState * list event * res bool :=
  match r with
  | Reply b => (s, [ev], Ok b)
  | Raise => (s, [ev], Err ClientError)
  end.

Definition isStatusOk : M bool :=
  fun s => of_reply (mkUState (u_ds s) (u_data s) (S (n_status s)) (n_lbs s)
                      (n_gnss s) (n_tsl s) (n_ticks s))
             ECallStatus (r_status cl (n_status s)).

Definition qth_sendLbs : M bool :=
  fun s => of_reply (mkUState (u_ds s) (u_data s) (n_status s) (S (n_lbs s))
                      (n_gnss s) (n_tsl s) (n_ticks s))
             ECallLbs (r_lbs cl (n_lbs s)).

Definition qth_sendGnss : M bool :=
  fun s => of_reply (mkUState (u_ds s) (u_data s) (n_status s) (n_lbs s)
                      (S (n_gnss s)) (n_tsl s) (n_ticks s))
             ECallGnss (r_gnss cl (n_gnss s)).

Definition qth_sendTsl (profile : Z) (d : payload) : M bool :=
  fun s => of_reply (mkUState (u_ds s) (u_data s) (n_status s) (n_lbs s)
                      (n_gnss s) (S (n_tsl s)) (n_ticks s))
             (ECallTsl profile d) (r_tsl cl (n_tsl s)).

Definition ticks_ms : M Z :=
  fun s => (mkUState (u_ds s) (u_data s) (n_status s) (n_lbs s)
              (n_gnss s) (n_tsl s) (S (n_ticks s)), [], Ok (r_ticks cl (n_ticks s))).

End Calls.

Section Uploader.
Variable cl : Client.
Local Open Scope Z_scope.

Definition log_info (msg : string) : M unit := emit (ELogInfo msg).
Definition log_error (msg : string) : M unit := emit (ELogError msg).

(** The [for i in range(10): ... else: ...] loop of [sendLbs] and
    [sendGnss], lines 102-118, with [k] iterations left:
<<
    for i in range(k):
        if act():
            logger.info(ok_msg)
            break
        utime.sleep(1)
    else:
        logger.info(fail_msg)
>> *)
Fixpoint retry_loop (act : M bool) (ok_msg fail_msg : string) (k : nat)
    : M unit :=
  match k with
  | O => log_info fail_msg
  | S k' =>
      b <- act ;;
      if b then log_info ok_msg
      else sleep1 ;; retry_loop act ok_msg fail_msg k'
  end.

(** [SensorDataUploader.sendLbs]; it returns [None] (modelled as [tt]). *)
Definition sendLbs : M unit :=
  retry_loop (qth_sendLbs cl) "upload LBS success" "upload LBS fail" 10.

(** [SensorDataUploader.sendGnss]; it returns [None] (modelled as [tt]). *)
Definition sendGnss : M unit :=
  retry_loop (qth_sendGnss cl) "upload GNSS success" "upload GNSS fail" 10.

(** The handshake loop of [__call__], lines 124-127, with [k] iterations
    left; [true] when it left by [break], [false] when it ran to [else]. *)
Fixpoint wait_ready (k : nat) : M bool :=
  match k with
  | O => ret false
  | S k' =>
      b <- isStatusOk cl ;;
      if b then ret true else sleep1 ;; wait_ready k'
  end.

(** [data.update({key: v})] when [v] is not [None] (lines 150-157): reading
    [data] raises [NameError] while it is unbound; a present key gets the
    new value, a new key is added (the list puts it last; its position
    plays no part in the statements). *)
Fixpoint dict_set (key : Z) (v : pval) (d : payload) : payload :=
  match d with
  | [] => [(key, v)]
  | (k, w) :: d' => if Z.eqb k key then (k, v) :: d' else (k, w) :: dict_set key v d'
  end.

Definition update_if (field : pynum) (key : Z) : M unit :=
  match field with
  | None => ret tt
  | Some v => d <- read_data ;; set_data (Some (dict_set key (PNum v) d))
  end.

(** The colour dictionary of lines 141-147. *)
Definition rgb_dict (rgb : Z) : payload :=
  [(7, PDict [(1, Z.land (Z.shiftr rgb 16) 255);
              (2, Z.land (Z.shiftr rgb 8) 255);
              (3, Z.land rgb 255)])].

(** Lines 158-167: send the payload, then the location reports due. *)
Definition dispatch (timestamp : Z) (data : payload) : M unit :=
  _ <- qth_sendTsl cl 1 data ;;
  log_info "SensorDataUploader upload result" ;;
  (if timestamp mod 1800 =? 0 then
     sendLbs ;; log_info "SensorDataUploader upload LBS result"
   else ret tt) ;;
  (if timestamp mod 60 =? 0 then
     sendGnss ;; log_info "SensorDataUploader upload GNSS result"
   else ret tt).

(** The updates of lines 148-157 ([timestamp % 1 == 0] always holds). *)
Definition update_metrics : M unit :=
  s <- get ;;
  update_if (temp1 (u_ds s)) 3 ;;
  update_if (humi (u_ds s)) 4 ;;
  update_if (temp2 (u_ds s)) 5 ;;
  update_if (press (u_ds s)) 6.

(** The body of the [try] of the steady-state loop, lines 137-169. *)
Definition tick_body : M unit :=
  ok <- isStatusOk cl ;;
  if ok then
    ms <- ticks_ms cl ;;
    let timestamp := ms / 1000 in
    (if timestamp mod 5 =? 0 then
       s <- get ;; set_data (Some (rgb_dict (rgb888 (u_ds s))))
     else ret tt) ;;
    (if timestamp mod 1 =? 0 then update_metrics else ret tt) ;;
    data <- read_data ;;
    dispatch timestamp data
  else log_error "qth server connect error".

(** One iteration of [while True:], lines 135-172. *)
Definition steady_tick : M unit :=
  emit EAcquire ;;
  try_except tick_body (fun e => emit (EPrint e)) ;;
  emit ERelease ;;
  sleep1.

(** [fuel] iterations of the steady-state loop. *)
Fixpoint upload_loop (fuel : nat) : M unit :=
  match fuel with
  | O => ret tt
  | S fuel' => steady_tick ;; upload_loop fuel'
  end.

(** Active reporting, lines 132-134 onwards. *)
Definition active_reporting (fuel : nat) : M unit :=
  sendLbs ;; sendGnss ;; upload_loop fuel.

(** [SensorDataUploader.__call__], lines 120-172, with the steady-state loop
    cut after [fuel] iterations. *)
Definition uploader_call (fuel : nat) : M unit :=
  emit EStart ;;
  ready <- wait_ready 30 ;;
  if ready then active_reporting fuel
  else log_error "can not connect to qth server, exist!!!".

End Uploader.

(** ** Concrete clients used to exercise the statements *)

(** A client that is ready and accepts telemetry, but never gets a location. *)
Definition client_never_located : Client :=
  mkClient (fun _ => Reply true) (fun _ => Reply false) (fun _ => Reply false)
    (fun _ => Reply true) (fun _ => 0%Z).

(** A client whose status check fails 29 times and then succeeds. *)
Definition client_ready_late : Client :=
  mkClient (fun n => if Nat.ltb n 29 then Reply false else Reply true)
    (fun _ => Reply true) (fun _ => Reply true) (fun _ => Reply true)
    (fun _ => 0%Z).

(** A client whose status check always fails. *)
Definition client_never_ready : Client :=
  mkClient (fun _ => Reply false) (fun _ => Reply true) (fun _ => Reply true)
    (fun _ => Reply true) (fun _ => 0%Z).

(** A client whose calls all succeed, whose [n]-th [ticks_ms()] is [t n]. *)
Definition client_clock (t : nat -> Z) : Client :=
  mkClient (fun _ => Reply true) (fun _ => Reply true) (fun _ => Reply true)
    (fun _ => Reply true) t.

(** A clock that reads [5000 + 1000 n] ms at its [n]-th read. *)
Definition clock_from_5s (n : nat) : Z := (5000 + 1000 * Z.of_nat n)%Z.

(** A data set with [temp1] freshly reported, and the next one, where the
    filter found no change in any metric. *)
Definition ds_fresh : DataSet := mkDataSet (Some (f64 20 0)) None None None 16711935.
Definition ds_quiet : DataSet := mkDataSet None None None None 16711935.

(** The two float readings of [temp1] used to refute C1 as stated:
    [1.01] and [0.01], each the binary64 number nearest to that decimal. *)
Definition f64_1_01 : pyfloat := f64 4548635623644201 (-52).
Definition f64_0_01 : pyfloat := f64 5764607523034235 (-59).

(** ** Views used in the statements *)

(** The four filtered metrics of [getSensorData]. *)
Inductive metric := MTemp1 | MHumi | MTemp2 | MPress.

Definition field_of (m : metric) (c : Collector) : pynum :=
  match m with
  | MTemp1 => temp1 (data_set c)
  | MHumi => humi (data_set c)
  | MTemp2 => temp2 (data_set c)
  | MPress => press (data_set c)
  end.

Definition memo_of (m : metric) (c : Collector) : pynum :=
  match m with
  | MTemp1 => prev_temp1 c
  | MHumi => prev_humi c
  | MTemp2 => prev_temp2 c
  | MPress => prev_press c
  end.

(** The value sampled for a metric this tick, [None] when its driver raised:
    [shtc3] gives [(temp1, humi)], [lps22hb] gives [(press, temp2)]. *)
Definition reading (m : metric) (rA rB : option (pyfloat * pyfloat)) : option pyfloat :=
  match m with
  | MTemp1 => option_map fst rA
  | MHumi => option_map snd rA
  | MTemp2 => option_map snd rB
  | MPress => option_map fst rB
  end.

(** The error line [getSensorData] logs when the driver of a metric raises. *)
Definition driver_error (m : metric) : string :=
  match m with
  | MTemp1 | MHumi => "shtc3 get sensor data failed"
  | MTemp2 | MPress => "lps22hb get sensor data failed"
  end.

(** The number a finite binary64 float denotes, exactly ([m * 2^e]);
    infinities and NaN, which no sensor returns, are sent to [0]. *)
Definition f64_to_Q (f : pyfloat) : Q :=
  match f with
  | S754_finite s m e =>
      let z := if s then Z.neg m else Z.pos m in
      if (0 <=? e)%Z then inject_Z (z * 2 ^ e) else Qmake z (Z.to_pos (2 ^ (- e)))
  | _ => 0
  end.

(** The change-filter contract of the spec (section 4.1), in exact arithmetic
    on the numbers the floats denote, for a sample [v],
    the memo [prev] before the tick and the field and memo after it. *)
Definition filter_contract (v : pyfloat) (prev field' memo' : pynum) : Prop :=
  (prev = None -> field' = Some v /\ memo' = Some v) /\
  (forall p, prev = Some p -> 1 < Qabs (f64_to_Q v - f64_to_Q p) ->
     field' = Some v /\ memo' = Some v) /\
  (forall p, prev = Some p -> Qabs (f64_to_Q v - f64_to_Q p) <= 1 ->
     field' = None /\ memo' = Some p).

(** The same contract with the test made as the code makes it: on the
    float [abs(v - prev)], the difference rounded to binary64. *)
Definition filter_contract_f64 (v : pyfloat) (prev field' memo' : pynum) : Prop :=
  (prev = None -> field' = Some v /\ memo' = Some v) /\
  (forall p, prev = Some p -> f64_gt1 (f64_abs (f64_sub v p)) = true ->
     field' = Some v /\ memo' = Some v) /\
  (forall p, prev = Some p -> f64_gt1 (f64_abs (f64_sub v p)) = false ->
     field' = None /\ memo' = Some p).

(** [data] after the updates of lines 150-157, written as a pure function. *)
Definition add_field (field : pynum) (key : Z) (d : payload) : payload :=
  match field with
  | None => d
  | Some v => dict_set key (PNum v) d
  end.

Definition add_fields (ds : DataSet) (d : payload) : payload :=
  add_field (press ds) 6 (add_field (temp2 ds) 5
    (add_field (humi ds) 4 (add_field (temp1 ds) 3 d))).

Definition with_data (s : UState) (d : option payload) : UState :=
  mkUState (u_ds s) d (n_status s) (n_lbs s) (n_gnss s) (n_tsl s) (n_ticks s).

(** The uploader state after the collector has written [ds] into the set. *)
Definition with_ds (s : UState) (ds : DataSet) : UState :=
  mkUState ds (u_data s) (n_status s) (n_lbs s) (n_gnss s) (n_tsl s) (n_ticks s).

(** A client none of whose payload and location calls raises. *)
Definition client_total (cl : Client) : Prop :=
  forall n, r_lbs cl n <> Raise /\ r_gnss cl n <> Raise /\ r_tsl cl n <> Raise.

(** A computation that leaves the local [data] as it found it. *)
Definition keeps_data {A} (m : M A) : Prop :=
  forall s, u_data (fst (fst (m s))) = u_data s.

(** [j] failed attempts of a retry loop: a call, then a sleep, [j] times. *)
Definition failed_attempts (ev : event) (j : nat) : list event :=
  List.concat (repeat [ev; ESleep] j).

(** Whether [field] is the no-change marker or the memo. *)
Definition field_tracks_memo (field memo : pynum) : Prop :=
  field = None \/ field = memo.

(** Python [d.get(key)] on the payload dictionary. *)
Fixpoint dict_get (key : Z) (d : payload) : option pval :=
  match d with
  | [] => None
  | (k, v) :: d' => if Z.eqb k key then Some v else dict_get key d'
  end.

(** The metric a payload key carries, as lines 150-157 write it: key 3 is
    [temp1], 4 [humi], 5 [temp2], 6 [press]. *)
Definition metric_key (ds : DataSet) (k : Z) : pynum :=
  if Z.eqb k 3 then temp1 ds
  else if Z.eqb k 4 then humi ds
  else if Z.eqb k 5 then temp2 ds
  else if Z.eqb k 6 then press ds
  else None.

(** Every event a computation logs satisfies [P], whatever its input. *)
Definition emits_only {A} (P : event -> bool) (m : M A) : Prop :=
  forall s, forallb P (snd (fst (m s))) = true.

Definition count_ev (p : event -> bool) (l : list event) : nat :=
  List.length (filter p l).

Definition is_sleep (e : event) : bool :=
  match e with ESleep => true | _ => false end.
Definition is_status (e : event) : bool :=
  match e with ECallStatus => true | _ => false end.
Definition is_lbs (e : event) : bool :=
  match e with ECallLbs => true | _ => false end.
Definition is_gnss (e : event) : bool :=
  match e with ECallGnss => true | _ => false end.
Definition is_tsl (e : event) : bool :=
  match e with ECallTsl _ _ => true | _ => false end.
Definition is_print (e : event) : bool :=
  match e with EPrint _ => true | _ => false end.
Definition is_lock (e : event) : bool :=
  match e with EAcquire | ERelease => true | _ => false end.
Definition is_acquire (e : event) : bool :=
  match e with EAcquire => true | _ => false end.
Definition is_release (e : event) : bool :=
  match e with ERelease => true | _ => false end.

(** ** Lemmas on the collector *)

Ltac split_matches :=
  repeat (simpl; match goal with
         | |- context [change_filter ?v ?p] => destruct (change_filter v p) eqn:?
         end).

Lemma change_filter_contract (v : pyfloat) (prev : pynum) :
  filter_contract_f64 v prev (fst (change_filter v prev)) (snd (change_filter v prev)).
Proof.
  unfold filter_contract_f64, change_filter.
  destruct prev as [p|]; repeat split; intros; try discriminate;
    repeat match goal with H : Some _ = Some _ |- _ => injection H as <- end;
    try rewrite H0; reflexivity.
Qed.

(** What [getSensorData] does to one filtered metric. *)
Lemma getSensorData_metric (m : metric) (rA rB : option (pyfloat * pyfloat)) (rC : option Z)
    (c : Collector) :
  let c' := fst (getSensorData rA rB rC c) in
  match reading m rA rB with
  | Some v => (field_of m c', memo_of m c') = change_filter v (memo_of m c)
  | None => field_of m c' = field_of m c /\ memo_of m c' = memo_of m c
  end.
Proof.
  destruct m, rA as [[t h]|], rB as [[p t2]|], rC; unfold getSensorData; simpl;
    split_matches; simpl; auto.
Qed.

Lemma getSensorData_rgb (rA rB : option (pyfloat * pyfloat)) (rC : option Z) (c : Collector) :
  rgb888 (data_set (fst (getSensorData rA rB rC c))) =
  match rC with Some rgb => rgb | None => rgb888 (data_set c) end.
Proof.
  destruct rA as [[t h]|], rB as [[p t2]|], rC; unfold getSensorData; simpl;
    split_matches; simpl; auto.
Qed.

Lemma getSensorData_logs (m : metric) (rA rB : option (pyfloat * pyfloat)) (rC : option Z)
    (c : Collector) :
  reading m rA rB = None ->
  In (ELogError (driver_error m)) (snd (getSensorData rA rB rC c)).
Proof.
  intros H; destruct m, rA as [[t h]|], rB as [[p t2]|], rC; simpl in H;
    try discriminate; unfold getSensorData; simpl; split_matches; simpl; auto 10.
Qed.

Lemma getSensorData_logs_rgb (rA rB : option (pyfloat * pyfloat)) (c : Collector) :
  In (ELogError "tcs34725 get sensor data failed") (snd (getSensorData rA rB None c)).
Proof.
  destruct rA as [[t h]|], rB as [[p t2]|]; unfold getSensorData; simpl;
    split_matches; simpl; auto 10.
Qed.

Lemma getSensorData_no_sleep (rA rB : option (pyfloat * pyfloat)) (rC : option Z)
    (c : Collector) :
  count_ev is_sleep (snd (getSensorData rA rB rC c)) = 0%nat.
Proof.
  destruct rA as [[t h]|], rB as [[p t2]|], rC; unfold getSensorData; simpl;
    split_matches; reflexivity.
Qed.

Lemma count_ev_app (p : event -> bool) (l1 l2 : list event) :
  count_ev p (l1 ++ l2) = (count_ev p l1 + count_ev p l2)%nat.
Proof. unfold count_ev. rewrite filter_app, length_app. reflexivity. Qed.

Lemma collector_loop_sleeps sA sB sC (fuel : nat) :
  forall i c, count_ev is_sleep (snd (collector_loop sA sB sC i fuel c)) = fuel.
Proof.
  induction fuel as [|fuel IH]; intros i c; simpl; [reflexivity|].
  destruct (getSensorData (sA i) (sB i) (sC i) c) as [c1 ev1] eqn:E1.
  destruct (collector_loop sA sB sC (S i) fuel c1) as [c2 ev2] eqn:E2.
  cbn [snd]. rewrite !count_ev_app.
  pose proof (getSensorData_no_sleep (sA i) (sB i) (sC i) c) as H0.
  rewrite E1 in H0. cbn [snd] in H0. specialize (IH (S i) c1).
  rewrite E2 in IH. cbn [snd] in IH. rewrite H0. unfold count_ev in *.
  simpl. rewrite IH. reflexivity.
Qed.

(** A metric whose reads all fail keeps its field and memo through the
    sampling loop. *)
Lemma collector_loop_keeps_metric (m : metric) sA sB sC (fuel : nat) :
  forall i c,
  (forall j, (j < fuel)%nat -> reading m (sA (i + j)%nat) (sB (i + j)%nat) = None) ->
  field_of m (fst (collector_loop sA sB sC i fuel c)) = field_of m c /\
  memo_of m (fst (collector_loop sA sB sC i fuel c)) = memo_of m c.
Proof.
  induction fuel as [|fuel IH]; intros i c Hd; [split; reflexivity|].
  simpl collector_loop.
  pose proof (getSensorData_metric m (sA i) (sB i) (sC i) c) as Hm.
  assert (Hr := Hd 0%nat ltac:(lia)). rewrite Nat.add_0_r in Hr. rewrite Hr in Hm.
  destruct (getSensorData (sA i) (sB i) (sC i) c) as [c1 ev1].
  cbn [fst] in Hm. destruct Hm as [Hf Hmm].
  destruct (IH (S i) c1) as [IH1 IH2].
  { intros j Hj. replace (S i + j)%nat with (i + S j)%nat by lia. apply Hd. lia. }
  destruct (collector_loop sA sB sC (S i) fuel c1) as [c2 ev2].
  cbn [fst] in *. split; congruence.
Qed.

(** ** Claims on the collector *)

(** C1, as stated: the threshold test is [|v - prev| > 1] on the values.
    Refuted for [prev = 0.01] and [v = 1.01]: the exact difference of the
    two floats is [1 + 5 * 2^-59 > 1], but Python rounds [v - prev] to
    [1.0], so [abs(v - prev) > 1] is false and the field becomes [None]. *)
Lemma change_filter_rounding_counterexample :
  let c := mkCollector DataSet_init (Some f64_0_01) None None None in
  let c' := fst (getSensorData (Some (f64_1_01, f64 40 0)) None None c) in
  reading MTemp1 (Some (f64_1_01, f64 40 0)) None = Some f64_1_01 /\
  ~ filter_contract f64_1_01 (memo_of MTemp1 c) (field_of MTemp1 c') (memo_of MTemp1 c').
Proof.
  split; [reflexivity|]. intros [_ [H _]].
  assert (Hlt : 1 < Qabs (f64_to_Q f64_1_01 - f64_to_Q f64_0_01)) by (vm_compute; reflexivity).
  destruct (H f64_0_01 eq_refl Hlt) as [Hf _]. vm_compute in Hf. discriminate Hf.
Qed.

(** C1, amended: in one sampling tick, each of temp1, humidity, temp2 and
    pressure whose sensor read returned a sample [v] follows the change
    filter with the test made on floats: with no memo it is reported (field
    and memo set to [v]); with a memo [p] and the rounded [abs(v - p)]
    above 1 it is reported likewise; otherwise (at exactly 1, and also when
    the exact difference is above 1 but rounds to 1.0) the field becomes
    [None] and the memo stays [p]. *)
Theorem getSensorData_change_filter (m : metric) (rA rB : option (pyfloat * pyfloat))
    (rC : option Z) (c : Collector) (v : pyfloat) :
  reading m rA rB = Some v ->
  let c' := fst (getSensorData rA rB rC c) in
  filter_contract_f64 v (memo_of m c) (field_of m c') (memo_of m c').
Proof.
  intros Hr c'. pose proof (getSensorData_metric m rA rB rC c) as H.
  rewrite Hr in H. fold c' in H.
  pose proof (change_filter_contract v (memo_of m c)) as Hc.
  rewrite <- H in Hc. exact Hc.
Qed.

Lemma getSensorData_change_filter_witness :
  reading MTemp1 (Some (f64 21 0, f64 40 0)) None = Some (f64 21 0) /\
  filter_contract_f64 (f64 21 0) (Some (f64 20 0)) None (Some (f64 20 0)).
Proof.
  split; [reflexivity|].
  exact (getSensorData_change_filter MTemp1 (Some (f64 21 0, f64 40 0)) None None
           (mkCollector DataSet_init (Some (f64 20 0)) None None None) (f64 21 0)
           eq_refl).
Defined.

(** C6: the three sensor reads are isolated.  A metric whose driver raised
    keeps its field and memo and its driver's error is logged; a metric's
    new field and memo depend on its own sample only, not on what the other
    sensors returned; the colour field is kept when its driver raises and
    logged, and is set from its own read otherwise; and the sampling loop
    runs every iteration it is given (one sleep per tick), whatever the
    drivers do. *)
Theorem getSensorData_isolated :
  (forall m rA rB rC c, reading m rA rB = None ->
     field_of m (fst (getSensorData rA rB rC c)) = field_of m c /\
     memo_of m (fst (getSensorData rA rB rC c)) = memo_of m c /\
     In (ELogError (driver_error m)) (snd (getSensorData rA rB rC c))) /\
  (forall m rA rB rC rA' rB' rC' c, reading m rA rB = reading m rA' rB' ->
     field_of m (fst (getSensorData rA rB rC c)) =
       field_of m (fst (getSensorData rA' rB' rC' c)) /\
     memo_of m (fst (getSensorData rA rB rC c)) =
       memo_of m (fst (getSensorData rA' rB' rC' c))) /\
  (forall rA rB rC c,
     rgb888 (data_set (fst (getSensorData rA rB rC c))) =
       match rC with Some rgb => rgb | None => rgb888 (data_set c) end) /\
  (forall rA rB c,
     In (ELogError "tcs34725 get sensor data failed")
        (snd (getSensorData rA rB None c))) /\
  (forall sA sB sC i fuel c,
     count_ev is_sleep (snd (collector_loop sA sB sC i fuel c)) = fuel).
Proof.
  split; [|split; [|split; [|split]]].
  - intros m rA rB rC c Hr.
    pose proof (getSensorData_metric m rA rB rC c) as H. rewrite Hr in H.
    destruct H as [H1 H2]. repeat split; auto using getSensorData_logs.
  - intros m rA rB rC rA' rB' rC' c Hr.
    pose proof (getSensorData_metric m rA rB rC c) as H.
    pose proof (getSensorData_metric m rA' rB' rC' c) as H'.
    rewrite <- Hr in H'. destruct (reading m rA rB).
    + rewrite <- H' in H. injection H as -> ->. auto.
    + destruct H as [-> ->], H' as [-> ->]. auto.
  - exact getSensorData_rgb.
  - exact getSensorData_logs_rgb.
  - intros. apply collector_loop_sleeps.
Qed.

Lemma getSensorData_isolated_witness :
  field_of MTemp1
    (fst (getSensorData None (Some (f64 1 0, f64 2 0)) (Some 7%Z)
            (Collector_init DataSet_init))) = Some (S754_zero false).
Proof.
  destruct getSensorData_isolated as [H _].
  apply (H MTemp1 None (Some (f64 1 0, f64 2 0)) (Some 7%Z)
           (Collector_init DataSet_init) eq_refl).
Defined.

Lemma change_filter_tracks (v : pyfloat) (prev : pynum) :
  field_tracks_memo (fst (change_filter v prev)) (snd (change_filter v prev)) /\
  snd (change_filter v prev) <> None.
Proof.
  unfold field_tracks_memo, change_filter.
  destruct prev as [p|]; [destruct (f64_gt1 (f64_abs (f64_sub v p)))|]; simpl;
    split; auto; discriminate.
Qed.

(** C10, as stated: the field equals [None] or the memo after every tick.
    Refuted on the first tick of a run whose [shtc3] read raises: [temp1]
    keeps its initial [0] while [prev_temp1] is still unset. *)
Lemma getSensorData_memo_invariant_counterexample :
  let c' := fst (getSensorData None None None (Collector_init DataSet_init)) in
  ~ field_tracks_memo (field_of MTemp1 c') (memo_of MTemp1 c').
Proof.
  simpl. unfold field_tracks_memo. intros [H|H]; discriminate.
Qed.

(** C10, amended: for each filtered metric, after a tick in which its sensor
    read succeeded the field is [None] or equal to the memo, which is then
    set; a tick keeps this property once it holds (a failed read changes
    neither field nor memo); a memo once set is never reset to unset; and
    from the initial state, as long as every read of the metric has failed,
    its field keeps its initial [0] while its memo is unset. *)
Theorem getSensorData_memo_invariant :
  (forall m rA rB rC c v, reading m rA rB = Some v ->
     field_tracks_memo (field_of m (fst (getSensorData rA rB rC c)))
                       (memo_of m (fst (getSensorData rA rB rC c))) /\
     memo_of m (fst (getSensorData rA rB rC c)) <> None) /\
  (forall m rA rB rC c, field_tracks_memo (field_of m c) (memo_of m c) ->
     field_tracks_memo (field_of m (fst (getSensorData rA rB rC c)))
                       (memo_of m (fst (getSensorData rA rB rC c)))) /\
  (forall m rA rB rC c, memo_of m c <> None ->
     memo_of m (fst (getSensorData rA rB rC c)) <> None) /\
  (forall m sA sB sC fuel,
     (forall j, (j < fuel)%nat -> reading m (sA j) (sB j) = None) ->
     field_of m (fst (collector_loop sA sB sC 0 fuel (Collector_init DataSet_init))) =
       Some (S754_zero false) /\
     memo_of m (fst (collector_loop sA sB sC 0 fuel (Collector_init DataSet_init))) = None).
Proof.
  split; [|split; [|split]].
  - intros m rA rB rC c v Hr.
    pose proof (getSensorData_metric m rA rB rC c) as H. rewrite Hr in H.
    pose proof (change_filter_tracks v (memo_of m c)) as Ht.
    rewrite <- H in Ht. exact Ht.
  - intros m rA rB rC c Hinv.
    pose proof (getSensorData_metric m rA rB rC c) as H.
    destruct (reading m rA rB) as [v|].
    + pose proof (change_filter_tracks v (memo_of m c)) as Ht.
      rewrite <- H in Ht. apply Ht.
    + destruct H as [-> ->]. exact Hinv.
  - intros m rA rB rC c Hm.
    pose proof (getSensorData_metric m rA rB rC c) as H.
    destruct (reading m rA rB) as [v|].
    + pose proof (change_filter_tracks v (memo_of m c)) as Ht.
      rewrite <- H in Ht. apply Ht.
    + destruct H as [_ ->]. exact Hm.
  - intros m sA sB sC fuel Hd.
    destruct (collector_loop_keeps_metric m sA sB sC fuel 0 (Collector_init DataSet_init)
                Hd) as [H1 H2].
    rewrite H1, H2. destruct m; split; reflexivity.
Qed.

Lemma getSensorData_memo_invariant_witness :
  field_tracks_memo
    (field_of MHumi (fst (getSensorData (Some (f64 20 0, f64 55 0)) None None
                            (Collector_init DataSet_init))))
    (memo_of MHumi (fst (getSensorData (Some (f64 20 0, f64 55 0)) None None
                           (Collector_init DataSet_init)))).
Proof.
  destruct getSensorData_memo_invariant as [H _].
  apply (H MHumi (Some (f64 20 0, f64 55 0)) None None (Collector_init DataSet_init)
           (f64 55 0) eq_refl).
Defined.

(** ** Lemmas on the uploader *)

Lemma failed_attempts_S (ev : event) (j : nat) :
  failed_attempts ev (S j) = ev :: ESleep :: failed_attempts ev j.
Proof. reflexivity. Qed.

Lemma count_failed_attempts (p : event -> bool) (ev : event) (j : nat) :
  count_ev p (failed_attempts ev j) =
  (j * ((if p ev then 1 else 0) + (if p ESleep then 1 else 0)))%nat.
Proof.
  induction j as [|j IH]; [reflexivity|].
  rewrite failed_attempts_S. unfold count_ev in *. simpl.
  destruct (p ev), (p ESleep); simpl; rewrite IH; lia.
Qed.

Lemma bind_Ok {A B} (m : M A) (k : A -> M B) s s1 ev1 a :
  m s = (s1, ev1, Ok a) ->
  bind m k s = let '(s2, ev2, r) := k a s1 in (s2, ev1 ++ ev2, r).
Proof. intros H. unfold bind. rewrite H. reflexivity. Qed.

Lemma bind_Err {A B} (m : M A) (k : A -> M B) s s1 ev1 e :
  m s = (s1, ev1, Err e) -> bind m k s = (s1, ev1, Err e).
Proof. intros H. unfold bind. rewrite H. reflexivity. Qed.

Section Retry.
(** A client call whose [n]-th reply is [sel n], counted by [cnt]. *)
Variable act : M bool.
Variable cnt : UState -> nat.
Variable sel : nat -> reply.
Variable ev : event.
Hypothesis act_spec : forall s, exists s',
  cnt s' = S (cnt s) /\ act s = of_reply s' ev (sel (cnt s)).

Lemma retry_loop_all_fail (ok_msg fail_msg : string) (k : nat) :
  forall s, (forall i, (i < k)%nat -> sel (cnt s + i) = Reply false) ->
  exists s', retry_loop act ok_msg fail_msg k s =
             (s', failed_attempts ev k ++ [ELogInfo fail_msg], Ok tt).
Proof.
  induction k as [|k IH]; intros s Hf.
  - exists s. reflexivity.
  - destruct (act_spec s) as [s1 [Hc Ha]].
    assert (H0 : sel (cnt s) = Reply false).
    { rewrite <- (Nat.add_0_r (cnt s)). apply Hf. lia. }
    rewrite H0 in Ha. simpl in Ha.
    destruct (IH s1) as [s2 H2].
    { intros i Hi. rewrite Hc. replace (S (cnt s) + i)%nat with (cnt s + S i)%nat
        by lia. apply Hf. lia. }
    exists s2. simpl retry_loop. rewrite (bind_Ok _ _ _ _ _ _ Ha).
    unfold sleep1, emit, bind. rewrite H2. reflexivity.
Qed.

Lemma retry_loop_success (ok_msg fail_msg : string) (j : nat) :
  forall k s, (j < k)%nat ->
  (forall i, (i < j)%nat -> sel (cnt s + i) = Reply false) ->
  sel (cnt s + j) = Reply true ->
  exists s', retry_loop act ok_msg fail_msg k s =
             (s', failed_attempts ev j ++ [ev; ELogInfo ok_msg], Ok tt).
Proof.
  induction j as [|j IH]; intros k s Hk Hf Ht; destruct k as [|k]; try lia;
    destruct (act_spec s) as [s1 [Hc Ha]].
  - rewrite Nat.add_0_r in Ht. rewrite Ht in Ha. simpl in Ha.
    exists s1. simpl retry_loop. rewrite (bind_Ok _ _ _ _ _ _ Ha). reflexivity.
  - assert (H0 : sel (cnt s) = Reply false).
    { rewrite <- (Nat.add_0_r (cnt s)). apply Hf. lia. }
    rewrite H0 in Ha. simpl in Ha.
    destruct (IH k s1) as [s2 H2]; [lia| | |].
    { intros i Hi. rewrite Hc. replace (S (cnt s) + i)%nat with (cnt s + S i)%nat
        by lia. apply Hf. lia. }
    { rewrite Hc. replace (S (cnt s) + j)%nat with (cnt s + S j)%nat by lia.
      exact Ht. }
    exists s2. simpl retry_loop. rewrite (bind_Ok _ _ _ _ _ _ Ha).
    unfold sleep1, emit, bind. rewrite H2. reflexivity.
Qed.
End Retry.

Lemma qth_sendLbs_spec (cl : Client) : forall s, exists s',
  n_lbs s' = S (n_lbs s) /\
  qth_sendLbs cl s = of_reply s' ECallLbs (r_lbs cl (n_lbs s)).
Proof. intros s. eexists. split; [|reflexivity]. reflexivity. Qed.

Lemma qth_sendGnss_spec (cl : Client) : forall s, exists s',
  n_gnss s' = S (n_gnss s) /\
  qth_sendGnss cl s = of_reply s' ECallGnss (r_gnss cl (n_gnss s)).
Proof. intros s. eexists. split; [|reflexivity]. reflexivity. Qed.

Lemma isStatusOk_spec (cl : Client) : forall s, exists s',
  n_status s' = S (n_status s) /\ n_tsl s' = n_tsl s /\
  isStatusOk cl s = of_reply s' ECallStatus (r_status cl (n_status s)).
Proof. intros s. eexists. split; [|split; [|reflexivity]]; reflexivity. Qed.

Lemma wait_ready_all_fail (cl : Client) (k : nat) :
  forall s, (forall i, (i < k)%nat -> r_status cl (n_status s + i) = Reply false) ->
  exists s', n_tsl s' = n_tsl s /\
             wait_ready cl k s = (s', failed_attempts ECallStatus k, Ok false).
Proof.
  induction k as [|k IH]; intros s Hf.
  - exists s. split; reflexivity.
  - destruct (isStatusOk_spec cl s) as [s1 [Hc [Ht Ha]]].
    assert (H0 : r_status cl (n_status s) = Reply false).
    { rewrite <- (Nat.add_0_r (n_status s)). apply Hf. lia. }
    rewrite H0 in Ha. simpl in Ha.
    destruct (IH s1) as [s2 [Ht2 H2]].
    { intros i Hi. rewrite Hc.
      replace (S (n_status s) + i)%nat with (n_status s + S i)%nat by lia.
      apply Hf. lia. }
    exists s2. split; [congruence|].
    simpl wait_ready. rewrite (bind_Ok _ _ _ _ _ _ Ha).
    unfold sleep1, emit, bind. rewrite H2. reflexivity.
Qed.

Lemma wait_ready_success (cl : Client) (j : nat) :
  forall k s, (j < k)%nat ->
  (forall i, (i < j)%nat -> r_status cl (n_status s + i) = Reply false) ->
  r_status cl (n_status s + j) = Reply true ->
  exists s', wait_ready cl k s =
             (s', failed_attempts ECallStatus j ++ [ECallStatus], Ok true).
Proof.
  induction j as [|j IH]; intros k s Hk Hf Ht; destruct k as [|k]; try lia;
    destruct (isStatusOk_spec cl s) as [s1 [Hc [_ Ha]]].
  - rewrite Nat.add_0_r in Ht. rewrite Ht in Ha. simpl in Ha.
    exists s1. simpl wait_ready. rewrite (bind_Ok _ _ _ _ _ _ Ha). reflexivity.
  - assert (H0 : r_status cl (n_status s) = Reply false).
    { rewrite <- (Nat.add_0_r (n_status s)). apply Hf. lia. }
    rewrite H0 in Ha. simpl in Ha.
    destruct (IH k s1) as [s2 H2]; [lia| | |].
    { intros i Hi. rewrite Hc.
      replace (S (n_status s) + i)%nat with (n_status s + S i)%nat by lia.
      apply Hf. lia. }
    { rewrite Hc.
      replace (S (n_status s) + j)%nat with (n_status s + S j)%nat by lia.
      exact Ht. }
    exists s2. simpl wait_ready. rewrite (bind_Ok _ _ _ _ _ _ Ha).
    unfold sleep1, emit, bind. rewrite H2. reflexivity.
Qed.

(** ** Claims on the retry helper and the handshake *)

(** C2, as stated: an always failing action makes [maxAttempts - 1 = 9]
    sleeps.  Refuted: [sendLbs] sleeps after every failed attempt, the last
    one included, so it sleeps 10 times. *)
Lemma sendLbs_sleeps_counterexample :
  let cl := mkClient (fun _ => Reply true) (fun _ => Reply false)
              (fun _ => Reply false) (fun _ => Reply true) (fun _ => 0%Z) in
  count_ev is_sleep (snd (fst (sendLbs cl (UState_init DataSet_init)))) <> 9%nat.
Proof. vm_compute. discriminate. Qed.

(** C2, amended: [sendLbs] (and likewise [sendGnss]) makes at most 10 client
    calls.  When all 10 fail it makes exactly 10 calls, each followed by a
    sleep (10 sleeps), and logs the failure; when the first success is the
    [j+1]-th attempt ([j < 10]) it makes exactly [j+1] calls with [j] sleeps
    and logs the success.  Either way it returns [None] (modelled as [tt]). *)
Theorem sendLbs_sendGnss_retry (cl : Client) (s : UState) :
  ((forall i, (i < 10)%nat -> r_lbs cl (n_lbs s + i) = Reply false) ->
   exists s' evs, sendLbs cl s = (s', evs, Ok tt) /\
     evs = failed_attempts ECallLbs 10 ++ [ELogInfo "upload LBS fail"] /\
     count_ev is_lbs evs = 10%nat /\ count_ev is_sleep evs = 10%nat) /\
  (forall j, (j < 10)%nat ->
   (forall i, (i < j)%nat -> r_lbs cl (n_lbs s + i) = Reply false) ->
   r_lbs cl (n_lbs s + j) = Reply true ->
   exists s' evs, sendLbs cl s = (s', evs, Ok tt) /\
     evs = failed_attempts ECallLbs j ++ [ECallLbs; ELogInfo "upload LBS success"] /\
     count_ev is_lbs evs = S j /\ count_ev is_sleep evs = j) /\
  ((forall i, (i < 10)%nat -> r_gnss cl (n_gnss s + i) = Reply false) ->
   exists s' evs, sendGnss cl s = (s', evs, Ok tt) /\
     evs = failed_attempts ECallGnss 10 ++ [ELogInfo "upload GNSS fail"] /\
     count_ev is_gnss evs = 10%nat /\ count_ev is_sleep evs = 10%nat) /\
  (forall j, (j < 10)%nat ->
   (forall i, (i < j)%nat -> r_gnss cl (n_gnss s + i) = Reply false) ->
   r_gnss cl (n_gnss s + j) = Reply true ->
   exists s' evs, sendGnss cl s = (s', evs, Ok tt) /\
     evs = failed_attempts ECallGnss j ++ [ECallGnss; ELogInfo "upload GNSS success"] /\
     count_ev is_gnss evs = S j /\ count_ev is_sleep evs = j).
Proof.
  split; [|split; [|split]].
  - intros Hf.
    destruct (retry_loop_all_fail _ n_lbs (r_lbs cl) ECallLbs (qth_sendLbs_spec cl)
                "upload LBS success" "upload LBS fail" 10 s Hf) as [s' H].
    exists s', (failed_attempts ECallLbs 10 ++ [ELogInfo "upload LBS fail"]).
    split; [exact H|split; [reflexivity|split]];
      rewrite count_ev_app, count_failed_attempts;
      reflexivity.
  - intros j Hj Hf Ht.
    destruct (retry_loop_success _ n_lbs (r_lbs cl) ECallLbs (qth_sendLbs_spec cl)
                "upload LBS success" "upload LBS fail" j 10 s Hj Hf Ht) as [s' H].
    exists s', (failed_attempts ECallLbs j ++ [ECallLbs; ELogInfo "upload LBS success"]).
    split; [exact H|split; [reflexivity|split]];
      rewrite count_ev_app, count_failed_attempts;
      unfold count_ev; simpl; lia.
  - intros Hf.
    destruct (retry_loop_all_fail _ n_gnss (r_gnss cl) ECallGnss (qth_sendGnss_spec cl)
                "upload GNSS success" "upload GNSS fail" 10 s Hf) as [s' H].
    exists s', (failed_attempts ECallGnss 10 ++ [ELogInfo "upload GNSS fail"]).
    split; [exact H|split; [reflexivity|split]];
      rewrite count_ev_app, count_failed_attempts;
      reflexivity.
  - intros j Hj Hf Ht.
    destruct (retry_loop_success _ n_gnss (r_gnss cl) ECallGnss (qth_sendGnss_spec cl)
                "upload GNSS success" "upload GNSS fail" j 10 s Hj Hf Ht) as [s' H].
    exists s', (failed_attempts ECallGnss j ++ [ECallGnss; ELogInfo "upload GNSS success"]).
    split; [exact H|split; [reflexivity|split]];
      rewrite count_ev_app, count_failed_attempts;
      unfold count_ev; simpl; lia.
Qed.

Lemma sendLbs_sendGnss_retry_witness :
  exists s' evs,
    sendLbs client_never_located (UState_init DataSet_init) = (s', evs, Ok tt) /\
    evs = failed_attempts ECallLbs 10 ++ [ELogInfo "upload LBS fail"] /\
    count_ev is_lbs evs = 10%nat /\ count_ev is_sleep evs = 10%nat.
Proof.
  apply (proj1 (sendLbs_sendGnss_retry client_never_located
                  (UState_init DataSet_init))).
  intros i Hi. reflexivity.
Defined.

(** C3: the handshake polls [isStatusOk] at most 30 times, sleeping one
    second after each failed poll.  If the first success is the [k+1]-th
    poll ([k < 30]; e.g. [k = 29]), the task goes on to active reporting.
    If all 30 polls fail, it logs the fatal error and returns, having called
    [sendTsl] not once. *)
Theorem uploader_handshake (cl : Client) (fuel : nat) (s : UState) :
  (forall k, (k < 30)%nat ->
   (forall i, (i < k)%nat -> r_status cl (n_status s + i) = Reply false) ->
   r_status cl (n_status s + k) = Reply true ->
   exists s1, uploader_call cl fuel s =
     let '(s2, ev2, r) := active_reporting cl fuel s1 in
     (s2, EStart :: failed_attempts ECallStatus k ++ [ECallStatus] ++ ev2, r)) /\
  ((forall i, (i < 30)%nat -> r_status cl (n_status s + i) = Reply false) ->
   exists s' evs, uploader_call cl fuel s = (s', evs, Ok tt) /\
     evs = EStart :: failed_attempts ECallStatus 30 ++
             [ELogError "can not connect to qth server, exist!!!"] /\
     count_ev is_status evs = 30%nat /\
     count_ev is_tsl evs = 0%nat /\ n_tsl s' = n_tsl s).
Proof.
  split.
  - intros k Hk Hf Ht.
    destruct (wait_ready_success cl k 30 s Hk Hf Ht) as [s1 H1].
    exists s1. unfold uploader_call, emit.
    rewrite (bind_Ok _ _ s s [EStart] tt eq_refl).
    rewrite (bind_Ok _ _ _ _ _ _ H1).
    destruct (active_reporting cl fuel s1) as [[s2 ev2] r].
    rewrite <- app_assoc. reflexivity.
  - intros Hf.
    destruct (wait_ready_all_fail cl 30 s Hf) as [s1 [Ht H1]].
    exists s1, (EStart :: failed_attempts ECallStatus 30 ++
             [ELogError "can not connect to qth server, exist!!!"]).
    split; [|split; [reflexivity|split; [|split]]].
    + unfold uploader_call, emit.
      rewrite (bind_Ok _ _ s s [EStart] tt eq_refl).
      rewrite (bind_Ok _ _ _ _ _ _ H1). reflexivity.
    + change (EStart :: ?l) with ([EStart] ++ l).
      rewrite !count_ev_app, count_failed_attempts. reflexivity.
    + change (EStart :: ?l) with ([EStart] ++ l).
      rewrite !count_ev_app, count_failed_attempts. reflexivity.
    + exact Ht.
Qed.

Lemma uploader_handshake_witness :
  (exists s1, uploader_call client_ready_late 0 (UState_init DataSet_init) =
     let '(s2, ev2, r) := active_reporting client_ready_late 0 s1 in
     (s2, EStart :: failed_attempts ECallStatus 29 ++ [ECallStatus] ++ ev2, r)) /\
  (exists s' evs,
     uploader_call client_never_ready 0 (UState_init DataSet_init) = (s', evs, Ok tt) /\
     evs = EStart :: failed_attempts ECallStatus 30 ++
             [ELogError "can not connect to qth server, exist!!!"] /\
     count_ev is_status evs = 30%nat /\
     count_ev is_tsl evs = 0%nat /\ n_tsl s' = n_tsl (UState_init DataSet_init)).
Proof.
  split.
  - apply (proj1 (uploader_handshake client_ready_late 0 (UState_init DataSet_init))
             29%nat).
    + lia.
    + intros i Hi. simpl. unfold client_ready_late. simpl.
      destruct (Nat.ltb_spec i 29); [reflexivity|lia].
    + reflexivity.
  - apply (proj2 (uploader_handshake client_never_ready 0 (UState_init DataSet_init))).
    intros i Hi. reflexivity.
Defined.

(** ** Lemmas on the steady-state loop *)

Lemma update_metrics_Some (s : UState) (d : payload) :
  u_data s = Some d ->
  update_metrics s = (with_data s (Some (add_fields (u_ds s) d)), [], Ok tt).
Proof.
  destruct s as [[t1 h p t2 rgb] dat a b c e f]; simpl; intros ->.
  destruct t1, h, p, t2; reflexivity.
Qed.

Lemma update_metrics_None (s : UState) :
  u_data s = None ->
  update_metrics s = (s, [], Ok tt) \/ update_metrics s = (s, [], Err NameError).
Proof.
  destruct s as [[t1 h p t2 rgb] dat a b c e f]; simpl; intros ->.
  destruct t1, h, p, t2; auto.
Qed.

(** A ready tick: the timestamp decides whether [data] is rebound to the
    colour dictionary; then either [data] is unbound and the tick raises
    [NameError], or the metrics are written into it and it is dispatched. *)
Lemma tick_body_ready (cl : Client) (s : UState) :
  r_status cl (n_status s) = Reply true ->
  tick_body cl s =
  let ts := (r_ticks cl (n_ticks s) / 1000)%Z in
  let d0 := if (ts mod 5 =? 0)%Z then Some (rgb_dict (rgb888 (u_ds s)))
            else u_data s in
  let s1 := mkUState (u_ds s) d0 (S (n_status s)) (n_lbs s) (n_gnss s)
              (n_tsl s) (S (n_ticks s)) in
  match d0 with
  | None => (s1, [ECallStatus], Err NameError)
  | Some d =>
      let '(s2, ev2, r) :=
        dispatch cl ts (add_fields (u_ds s) d)
          (with_data s1 (Some (add_fields (u_ds s) d))) in
      (s2, ECallStatus :: ev2, r)
  end.
Proof.
  intros H. destruct s as [ds dat a b c e f]; cbn in H.
  unfold tick_body. unfold bind at 1. unfold isStatusOk at 1. cbn [n_status]. rewrite H.
  cbn - [dispatch update_metrics]. rewrite (Z.mod_1_r (r_ticks cl f / 1000)%Z). cbn [Z.eqb].
  destruct ((r_ticks cl f / 1000) mod 5 =? 0)%Z eqn:E5; [|destruct dat as [d|] eqn:Ed].
  - cbn - [dispatch update_metrics].
    match goal with |- context [bind update_metrics ?k ?st] =>
      rewrite (bind_Ok update_metrics k st _ _ _ (update_metrics_Some st _ eq_refl)) end.
    cbn - [dispatch].
    destruct (dispatch _ _ _ _) as [[s2 ev2] r]. reflexivity.
  - cbn - [dispatch update_metrics].
    match goal with |- context [bind update_metrics ?k ?st] =>
      rewrite (bind_Ok update_metrics k st _ _ _ (update_metrics_Some st _ eq_refl)) end.
    cbn - [dispatch].
    destruct (dispatch _ _ _ _) as [[s2 ev2] r]. reflexivity.
  - cbn - [dispatch update_metrics].
    match goal with |- context [bind update_metrics ?k ?st] =>
      destruct (update_metrics_None st eq_refl) as [Hu|Hu];
      [rewrite (bind_Ok update_metrics k st _ _ _ Hu)
      |rewrite (bind_Err update_metrics k st _ _ _ Hu)] end;
      reflexivity.
Qed.

(** Every tick runs its body under [try]; whatever the body does, the tick
    releases the lock, sleeps and returns normally. *)
Lemma steady_tick_spec (cl : Client) (s : UState) :
  steady_tick cl s =
  let '(s1, ev1, r) := tick_body cl s in
  (s1, EAcquire :: ev1 ++
       match r with Ok _ => [] | Err e => [EPrint e] end ++ [ERelease; ESleep],
   Ok tt).
Proof.
  unfold steady_tick, bind, try_except, emit, sleep1.
  destruct (tick_body cl s) as [[s1 ev1] [a|e]]; simpl;
    rewrite <- ?app_assoc; reflexivity.
Qed.

Lemma tick_body_not_ready (cl : Client) (s : UState) :
  r_status cl (n_status s) = Reply false ->
  tick_body cl s =
  (mkUState (u_ds s) (u_data s) (S (n_status s)) (n_lbs s) (n_gnss s)
     (n_tsl s) (n_ticks s),
   [ECallStatus; ELogError "qth server connect error"], Ok tt).
Proof.
  intros H. unfold tick_body. unfold bind at 1. unfold isStatusOk at 1.
  rewrite H. reflexivity.
Qed.

Lemma tick_body_status_raises (cl : Client) (s : UState) :
  r_status cl (n_status s) = Raise ->
  tick_body cl s =
  (mkUState (u_ds s) (u_data s) (S (n_status s)) (n_lbs s) (n_gnss s)
     (n_tsl s) (n_ticks s), [ECallStatus], Err ClientError).
Proof.
  intros H. unfold tick_body. unfold bind at 1. unfold isStatusOk at 1.
  rewrite H. reflexivity.
Qed.

(** *** Computations that keep [data] *)

Lemma bind_keeps {A B} (m : M A) (k : A -> M B) :
  keeps_data m -> (forall a, keeps_data (k a)) -> keeps_data (bind m k).
Proof.
  intros Hm Hk s. unfold bind. specialize (Hm s).
  destruct (m s) as [[s1 ev1] [a|e]]; simpl in *; [|exact Hm].
  specialize (Hk a s1). destruct (k a s1) as [[s2 ev2] r]. simpl in *. congruence.
Qed.

Lemma ret_keeps {A} (a : A) : keeps_data (ret a).
Proof. intros s. reflexivity. Qed.

Lemma emit_keeps (e : event) : keeps_data (emit e).
Proof. intros s. reflexivity. Qed.

Lemma of_reply_keeps (cl : Client) :
  keeps_data (qth_sendLbs cl) /\ keeps_data (qth_sendGnss cl) /\
  (forall d, keeps_data (qth_sendTsl cl 1 d)).
Proof.
  split; [|split; [|intros d]]; intros s; unfold qth_sendLbs, qth_sendGnss, qth_sendTsl.
  - destruct (r_lbs cl (n_lbs s)); reflexivity.
  - destruct (r_gnss cl (n_gnss s)); reflexivity.
  - destruct (r_tsl cl (n_tsl s)); reflexivity.
Qed.

Lemma retry_loop_keeps (act : M bool) (ok_msg fail_msg : string) (k : nat) :
  keeps_data act -> keeps_data (retry_loop act ok_msg fail_msg k).
Proof.
  intros Ha. induction k as [|k IH]; simpl.
  - apply emit_keeps.
  - apply bind_keeps; [exact Ha|]. intros [|].
    + apply emit_keeps.
    + apply bind_keeps; [apply emit_keeps|]. intros _. exact IH.
Qed.

Lemma dispatch_keeps (cl : Client) (ts : Z) (d : payload) :
  keeps_data (dispatch cl ts d).
Proof.
  destruct (of_reply_keeps cl) as [Hl [Hg Ht]].
  unfold dispatch, log_info.
  apply bind_keeps; [apply Ht|intros _].
  apply bind_keeps; [apply emit_keeps|intros _].
  apply bind_keeps; [destruct (ts mod 1800 =? 0)%Z|intros _].
  - apply bind_keeps; [apply retry_loop_keeps, Hl|intros _; apply emit_keeps].
  - apply ret_keeps.
  - destruct (ts mod 60 =? 0)%Z; [|apply ret_keeps].
    apply bind_keeps; [apply retry_loop_keeps, Hg|intros _; apply emit_keeps].
Qed.

Section RetryTotal.
Variable act : M bool.
Variable cnt : UState -> nat.
Variable sel : nat -> reply.
Variable ev : event.
Hypothesis act_spec : forall s, exists s',
  cnt s' = S (cnt s) /\ act s = of_reply s' ev (sel (cnt s)).
Hypothesis sel_total : forall n, sel n <> Raise.

(** With a client call that never raises, the retry loop returns normally
    and, among calls, only performs [ev]. *)
Lemma retry_loop_total (ok_msg fail_msg : string) (k : nat) :
  forall s, exists s' evs,
  retry_loop act ok_msg fail_msg k s = (s', evs, Ok tt) /\
  (forall p : event -> bool, p ESleep = false -> (forall m, p (ELogInfo m) = false) ->
     existsb p evs = match k with O => false | S _ => p ev end).
Proof.
  induction k as [|k IH]; intros s.
  - exists s, [ELogInfo fail_msg]. split; [reflexivity|].
    intros p Hs Hl. simpl. rewrite Hl. reflexivity.
  - destruct (act_spec s) as [s1 [_ Ha]].
    destruct (sel (cnt s)) as [b|] eqn:Es; [|exfalso; exact (sel_total _ Es)].
    simpl in Ha. simpl retry_loop. rewrite (bind_Ok _ _ _ _ _ _ Ha).
    destruct b.
    + exists s1, [ev; ELogInfo ok_msg]. split; [reflexivity|].
      intros p Hs Hl. simpl. rewrite Hl. apply orb_false_r.
    + destruct (IH s1) as [s2 [evs [H2 X2]]].
      exists s2, (ev :: ESleep :: evs). split.
      * unfold sleep1, emit, bind. rewrite H2. reflexivity.
      * intros p Hs Hl. simpl. rewrite Hs, (X2 p Hs Hl).
        destruct k, (p ev); reflexivity.
Qed.
End RetryTotal.

Lemma dispatch_total (cl : Client) (ts : Z) (d : payload) (s : UState) :
  client_total cl ->
  exists s' evs, dispatch cl ts d s = (s', ECallTsl 1 d :: evs, Ok tt) /\
    existsb is_lbs evs = (ts mod 1800 =? 0)%Z /\
    existsb is_gnss evs = (ts mod 60 =? 0)%Z /\
    existsb is_tsl evs = false.
Proof.
  intros Htot.
  assert (Hl : forall n, r_lbs cl n <> Raise) by (intros n; apply Htot).
  assert (Hg : forall n, r_gnss cl n <> Raise) by (intros n; apply Htot).
  destruct (r_tsl cl (n_tsl s)) as [b|] eqn:Et; [|exfalso; exact (proj2 (proj2 (Htot _)) Et)].
  set (s1 := mkUState (u_ds s) (u_data s) (n_status s) (n_lbs s) (n_gnss s)
               (S (n_tsl s)) (n_ticks s)).
  unfold dispatch.
  rewrite (bind_Ok (qth_sendTsl cl 1 d) _ s s1 [ECallTsl 1 d] b)
    by (unfold qth_sendTsl; rewrite Et; reflexivity).
  cbv beta.
  rewrite (bind_Ok (log_info _) _ s1 s1 [ELogInfo "SensorDataUploader upload result"] tt
             eq_refl).
  cbv beta.
  (* the LBS branch *)
  assert (HL : exists s2 evL,
    (if (ts mod 1800 =? 0)%Z
     then sendLbs cl;; log_info "SensorDataUploader upload LBS result"
     else ret tt) s1 = (s2, evL, Ok tt) /\
    existsb is_lbs evL = (ts mod 1800 =? 0)%Z /\
    existsb is_gnss evL = false /\ existsb is_tsl evL = false).
  { destruct (ts mod 1800 =? 0)%Z.
    - destruct (retry_loop_total _ n_lbs (r_lbs cl) ECallLbs (qth_sendLbs_spec cl) Hl
                  "upload LBS success" "upload LBS fail" 10 s1) as [s2 [evs [H2 X2]]].
      exists s2, (evs ++ [ELogInfo "SensorDataUploader upload LBS result"]).
      split; [unfold sendLbs; rewrite (bind_Ok _ _ _ _ _ _ H2); reflexivity|].
      rewrite !existsb_app, (X2 is_lbs), (X2 is_gnss), (X2 is_tsl); try reflexivity.
      repeat split.
    - exists s1, []. repeat split. }
  destruct HL as [s2 [evL [HL2 [XL1 [XL2 XL3]]]]].
  rewrite (bind_Ok _ _ _ _ _ _ HL2). cbv beta.
  destruct (ts mod 60 =? 0)%Z eqn:E60.
  - destruct (retry_loop_total _ n_gnss (r_gnss cl) ECallGnss (qth_sendGnss_spec cl) Hg
                "upload GNSS success" "upload GNSS fail" 10 s2) as [s3 [evs [H3 X3]]].
    exists s3, ([ELogInfo "SensorDataUploader upload result"] ++ evL ++
                (evs ++ [ELogInfo "SensorDataUploader upload GNSS result"])).
    rewrite (bind_Ok (sendGnss cl) _ _ _ _ _ H3). simpl.
    split; [reflexivity|].
    rewrite !existsb_app, XL1, XL2, XL3, (X3 is_lbs), (X3 is_gnss), (X3 is_tsl)
      by (try intros; reflexivity).
    simpl. rewrite ?orb_false_r. auto.
  - exists s2, ([ELogInfo "SensorDataUploader upload result"] ++ evL).
    unfold ret. simpl. split; [rewrite ?app_nil_r; reflexivity|].
    auto.
Qed.

Lemma mod_1800_mod_60 (z : Z) : (z mod 1800 = 0 -> z mod 60 = 0)%Z.
Proof. intros H. Z.div_mod_to_equations. lia. Qed.

Lemma mod_60_mod_5 (z : Z) : (z mod 60 = 0 -> z mod 5 = 0)%Z.
Proof. intros H. Z.div_mod_to_equations. lia. Qed.

(** ** Claims on the steady-state loop *)

(** C4: on a tick whose status check succeeds, with a client that does not
    raise, the LBS report is made exactly when the timestamp is a multiple
    of 1800 and the GNSS report exactly when it is a multiple of 60; a
    multiple of 1800 is a multiple of 60, so both fire then, and neither
    fires when the timestamp is a multiple of neither. *)
Theorem steady_tick_location_cadence (cl : Client) (s : UState) :
  client_total cl ->
  r_status cl (n_status s) = Reply true ->
  let ts := (r_ticks cl (n_ticks s) / 1000)%Z in
  let evs := snd (fst (steady_tick cl s)) in
  existsb is_lbs evs = (ts mod 1800 =? 0)%Z /\
  existsb is_gnss evs = (ts mod 60 =? 0)%Z /\
  ((ts mod 1800 = 0)%Z -> existsb is_lbs evs = true /\ existsb is_gnss evs = true).
Proof.
  intros Htot Hok ts evs.
  enough (E : existsb is_lbs evs = (ts mod 1800 =? 0)%Z /\
              existsb is_gnss evs = (ts mod 60 =? 0)%Z).
  { destruct E as [E1 E2]. split; [exact E1|split; [exact E2|]].
    intros H1800. rewrite E1, E2. rewrite (mod_1800_mod_60 _ H1800), H1800.
    split; reflexivity. }
  subst evs. rewrite steady_tick_spec, (tick_body_ready cl s Hok). fold ts.
  cbv zeta.
  destruct (ts mod 5 =? 0)%Z eqn:E5; [|destruct (u_data s) as [d|] eqn:Ed].
  - destruct (dispatch_total cl ts (add_fields (u_ds s) (rgb_dict (rgb888 (u_ds s))))
                (with_data (mkUState (u_ds s) (Some (rgb_dict (rgb888 (u_ds s))))
                   (S (n_status s)) (n_lbs s) (n_gnss s) (n_tsl s) (S (n_ticks s)))
                   (Some (add_fields (u_ds s) (rgb_dict (rgb888 (u_ds s))))))
                Htot) as [s' [evs [Hd [X1 [X2 _]]]]].
    rewrite Hd. simpl. rewrite !existsb_app. simpl. rewrite X1, X2, !orb_false_r.
    split; reflexivity.
  - destruct (dispatch_total cl ts (add_fields (u_ds s) d)
                (with_data (mkUState (u_ds s) (Some d)
                   (S (n_status s)) (n_lbs s) (n_gnss s) (n_tsl s) (S (n_ticks s)))
                   (Some (add_fields (u_ds s) d)))
                Htot) as [s' [evs [Hd [X1 [X2 _]]]]].
    rewrite Hd. simpl. rewrite !existsb_app. simpl. rewrite X1, X2, !orb_false_r.
    split; reflexivity.
  - simpl. apply Z.eqb_neq in E5.
    assert (N60 : (ts mod 60 <> 0)%Z) by (intros H; apply E5, mod_60_mod_5, H).
    assert (N1800 : (ts mod 1800 <> 0)%Z) by (intros H; apply N60, mod_1800_mod_60, H).
    apply Z.eqb_neq in N60, N1800. rewrite N60, N1800. split; reflexivity.
Qed.

Lemma steady_tick_location_cadence_witness :
  existsb is_lbs (snd (fst (steady_tick (client_clock (fun _ => 1800000%Z))
                              (UState_init DataSet_init)))) = true /\
  existsb is_gnss (snd (fst (steady_tick (client_clock (fun _ => 1800000%Z))
                               (UState_init DataSet_init)))) = true.
Proof.
  refine (proj2 (proj2 (steady_tick_location_cadence
                          (client_clock (fun _ => 1800000%Z))
                          (UState_init DataSet_init) _ _)) _).
  - intros n. split; [|split]; discriminate.
  - reflexivity.
  - vm_compute. reflexivity.
Defined.

(** C8: on a steady-state tick whose status check returns false, the task
    logs the connection error and does nothing else before the next tick:
    the data set and [data] are untouched, no payload or location call is
    made (only the status counter moves), then the lock is released and the
    task sleeps. *)
Theorem steady_tick_not_ready (cl : Client) (s : UState) :
  r_status cl (n_status s) = Reply false ->
  steady_tick cl s =
  (mkUState (u_ds s) (u_data s) (S (n_status s)) (n_lbs s) (n_gnss s)
     (n_tsl s) (n_ticks s),
   [EAcquire; ECallStatus; ELogError "qth server connect error"; ERelease; ESleep],
   Ok tt).
Proof.
  intros H. rewrite steady_tick_spec, (tick_body_not_ready cl s H). reflexivity.
Qed.

Lemma steady_tick_not_ready_witness :
  steady_tick client_never_ready (UState_init DataSet_init) =
  (mkUState DataSet_init None 1 0 0 0 0,
   [EAcquire; ECallStatus; ELogError "qth server connect error"; ERelease; ESleep],
   Ok tt).
Proof.
  exact (steady_tick_not_ready client_never_ready (UState_init DataSet_init) eq_refl).
Defined.

Lemma upload_loop_ok (cl : Client) (fuel : nat) :
  forall s, snd (upload_loop cl fuel s) = Ok tt.
Proof.
  induction fuel as [|fuel IH]; intros s; [reflexivity|].
  simpl upload_loop. unfold bind at 1. rewrite steady_tick_spec.
  destruct (tick_body cl s) as [[s1 ev1] r].
  specialize (IH s1). destruct (upload_loop cl fuel s1) as [[s2 ev2] r2].
  simpl in *. exact IH.
Qed.

(** C9: in active reporting, a tick whose body raises any exception (the
    client raising, or [NameError] on an unbound [data]) prints it and still
    releases the lock, sleeps and returns normally; so the steady-state loop
    returns normally after any number of ticks, whatever the client does. *)
Theorem steady_state_catches_all (cl : Client) :
  (forall s s1 ev1 e, tick_body cl s = (s1, ev1, Err e) ->
     steady_tick cl s = (s1, EAcquire :: ev1 ++ [EPrint e; ERelease; ESleep], Ok tt)) /\
  (forall s, snd (steady_tick cl s) = Ok tt) /\
  (forall fuel s, snd (upload_loop cl fuel s) = Ok tt).
Proof.
  split; [|split].
  - intros s s1 ev1 e H. rewrite steady_tick_spec, H. reflexivity.
  - intros s. rewrite steady_tick_spec.
    destruct (tick_body cl s) as [[s1 ev1] r]. reflexivity.
  - exact (upload_loop_ok cl).
Qed.

Lemma steady_state_catches_all_witness :
  steady_tick (client_clock (fun _ => 6000%Z)) (UState_init DataSet_init) =
  (mkUState DataSet_init None 1 0 0 0 1,
   [EAcquire; ECallStatus; EPrint NameError; ERelease; ESleep], Ok tt).
Proof.
  apply (proj1 (steady_state_catches_all (client_clock (fun _ => 6000%Z)))
           (UState_init DataSet_init) (mkUState DataSet_init None 1 0 0 0 1)
           [ECallStatus] NameError).
  vm_compute. reflexivity.
Defined.

(** What one tick does to the local [data]. *)
Lemma steady_tick_data (cl : Client) (s : UState) :
  let ts := (r_ticks cl (n_ticks s) / 1000)%Z in
  u_data (fst (fst (steady_tick cl s))) =
  match r_status cl (n_status s) with
  | Reply true =>
      if (ts mod 5 =? 0)%Z
      then Some (add_fields (u_ds s) (rgb_dict (rgb888 (u_ds s))))
      else option_map (add_fields (u_ds s)) (u_data s)
  | _ => u_data s
  end.
Proof.
  intros ts. rewrite steady_tick_spec.
  destruct (r_status cl (n_status s)) as [[|]|] eqn:H.
  - rewrite (tick_body_ready cl s H). fold ts. cbv zeta.
    destruct (ts mod 5 =? 0)%Z; [|destruct (u_data s) as [d|]]; simpl; try reflexivity;
      match goal with |- context [dispatch cl ts ?d ?st] =>
        pose proof (dispatch_keeps cl ts d st) as K;
        destruct (dispatch cl ts d st) as [[s2 ev2] r] end;
      simpl in *; exact K.
  - rewrite (tick_body_not_ready cl s H). reflexivity.
  - rewrite (tick_body_status_raises cl s H). reflexivity.
Qed.

(** C5 fails on the code: two ready ticks at timestamps 5 and 6, where the
    collector found [temp1 = 20] before the first and no change in any
    metric before the second.  The payload of the second tick (timestamp 6,
    not a multiple of 5) still carries the colour channels, and carries
    [temp1 = 20] although [temp1] is [None] that tick: [data] is the
    dictionary built at timestamp 5, never rebuilt. *)
Lemma payload_stale_on_second_tick :
  let cl := client_clock clock_from_5s in
  let s1 := fst (fst (steady_tick cl (UState_init ds_fresh))) in
  snd (fst (steady_tick cl (with_ds s1 ds_quiet))) =
  [EAcquire; ECallStatus;
   ECallTsl 1 [(7, PDict [(1, 255); (2, 0); (3, 255)]%Z); (3, PNum (f64 20 0))]%Z;
   ELogInfo "SensorDataUploader upload result"; ERelease; ESleep].
Proof. vm_compute. reflexivity. Qed.

(** C7, as stated: the first tick whose timestamp is not a multiple of 5
    faults on the unbound [data].  Refuted: when the tick before it was at
    timestamp 5, the tick at timestamp 6 sends a payload and prints no
    exception; both ticks send. *)
Lemma data_unbound_counterexample :
  let evs := snd (fst (upload_loop (client_clock clock_from_5s) 2
                         (UState_init ds_fresh))) in
  count_ev is_print evs = 0%nat /\ count_ev is_tsl evs = 2%nat.
Proof. vm_compute. split; reflexivity. Qed.

(** C7, amended.  [data] starts unbound (the handshake and the two initial
    location reports do not bind it) and only a ready tick whose timestamp
    is a multiple of 5 binds it; once bound it is never unbound again.  On a
    ready tick whose timestamp is not a multiple of 5: while [data] is
    unbound, the tick raises [NameError], prints it, and sends nothing;
    once bound (and with a client that does not raise), the body of the
    tick raises no [NameError] and calls [sendTsl]. *)
Theorem steady_tick_data_binding (cl : Client) :
  (forall s, u_data (fst (fst ((sendLbs cl ;; sendGnss cl) s))) = u_data s) /\
  (forall s, u_data s = None -> u_data (fst (fst (steady_tick cl s))) <> None ->
     r_status cl (n_status s) = Reply true /\
     ((r_ticks cl (n_ticks s) / 1000) mod 5 = 0)%Z) /\
  (forall s, u_data s <> None -> u_data (fst (fst (steady_tick cl s))) <> None) /\
  (forall s, r_status cl (n_status s) = Reply true ->
     ((r_ticks cl (n_ticks s) / 1000) mod 5 <> 0)%Z ->
     u_data s = None ->
     steady_tick cl s =
     (mkUState (u_ds s) None (S (n_status s)) (n_lbs s) (n_gnss s) (n_tsl s)
        (S (n_ticks s)),
      [EAcquire; ECallStatus; EPrint NameError; ERelease; ESleep], Ok tt)) /\
  (forall s d, client_total cl -> r_status cl (n_status s) = Reply true ->
     ((r_ticks cl (n_ticks s) / 1000) mod 5 <> 0)%Z ->
     u_data s = Some d ->
     exists s' d' evs, tick_body cl s = (s', ECallStatus :: ECallTsl 1 d' :: evs, Ok tt)).
Proof.
  destruct (of_reply_keeps cl) as [Hl [Hg _]].
  split; [|split; [|split; [|split]]].
  - apply bind_keeps; [apply retry_loop_keeps, Hl|intros _].
    apply retry_loop_keeps, Hg.
  - intros s Hn Hs. rewrite steady_tick_data in Hs.
    destruct (r_status cl (n_status s)) as [[|]|]; try (rewrite Hn in Hs; tauto).
    split; [reflexivity|].
    destruct ((r_ticks cl (n_ticks s) / 1000) mod 5 =? 0)%Z eqn:E5.
    + apply Z.eqb_eq, E5.
    + rewrite Hn in Hs. simpl in Hs. tauto.
  - intros s Hs. rewrite steady_tick_data.
    destruct (r_status cl (n_status s)) as [[|]|]; try exact Hs.
    destruct (_ =? 0)%Z; [discriminate|].
    destruct (u_data s); [discriminate|tauto].
  - intros s Hok H5 Hn. rewrite steady_tick_spec, (tick_body_ready cl s Hok).
    cbv zeta. apply Z.eqb_neq in H5. rewrite H5, Hn. reflexivity.
  - intros s d Htot Hok H5 Hd. rewrite (tick_body_ready cl s Hok). cbv zeta.
    apply Z.eqb_neq in H5. rewrite H5, Hd. cbn beta iota.
    match goal with |- context [dispatch cl ?ts ?d0 ?st] =>
      destruct (dispatch_total cl ts d0 st Htot) as [s2 [evs [Hdp _]]];
      rewrite Hdp; exists s2, d0, evs end.
    reflexivity.
Qed.

Lemma steady_tick_data_binding_witness :
  steady_tick (client_clock (fun _ => 6000%Z)) (UState_init ds_quiet) =
  (mkUState ds_quiet None 1 0 0 0 1,
   [EAcquire; ECallStatus; EPrint NameError; ERelease; ESleep], Ok tt).
Proof.
  apply (proj1 (proj2 (proj2 (proj2
           (steady_tick_data_binding (client_clock (fun _ => 6000%Z))))))
           (UState_init ds_quiet)).
  - reflexivity.
  - vm_compute. discriminate.
  - reflexivity.
Defined.

(** ** Further properties of the code *)

(** *** The payload dictionary *)

Lemma dict_set_spec (key k : Z) (v : pval) (d : payload) :
  dict_get key (dict_set key v d) = Some v /\
  (k <> key -> dict_get k (dict_set key v d) = dict_get k d).
Proof.
  induction d as [|[k' w] d IH]; simpl.
  - rewrite Z.eqb_refl. split; [reflexivity|].
    intros H. destruct (Z.eqb_spec key k); [congruence|reflexivity].
  - destruct IH as [IH1 IH2].
    destruct (Z.eqb_spec k' key) as [->|Hne]; simpl.
    + rewrite Z.eqb_refl. split; [reflexivity|].
      intros H. destruct (Z.eqb_spec key k); [congruence|reflexivity].
    + rewrite (proj2 (Z.eqb_neq k' key) Hne). split; [exact IH1|].
      intros H. rewrite IH2 by exact H. reflexivity.
Qed.

(** The three colour channels sent are bytes, and they pack back into
    the low 24 bits of [rgb888]. *)
Theorem rgb_dict_channels (rgb : Z) :
  match rgb_dict rgb with
  | [(7%Z, PDict [(1%Z, r); (2%Z, g); (3%Z, b)])] =>
      (0 <= r <= 255 /\ 0 <= g <= 255 /\ 0 <= b <= 255 /\
       r * 65536 + g * 256 + b = rgb mod 16777216)%Z
  | _ => False
  end.
Proof.
  unfold rgb_dict.
  change 255%Z with (Z.ones 8).
  rewrite !Z.land_ones by lia.
  rewrite !Z.shiftr_div_pow2 by lia.
  change (2 ^ 8)%Z with 256%Z. change (2 ^ 16)%Z with 65536%Z.
  cbn. change (Z.pow_pos 2 8) with 256%Z.
  Z.div_mod_to_equations. lia.
Qed.

(** *** What the upload thread logs *)

Section Emits.
Variable P : event -> bool.

Lemma emits_bind {A B} (m : M A) (k : A -> M B) :
  emits_only P m -> (forall a, emits_only P (k a)) -> emits_only P (bind m k).
Proof.
  intros Hm Hk s. unfold bind. specialize (Hm s).
  destruct (m s) as [[s1 ev1] [a|e]]; simpl in *; [|exact Hm].
  specialize (Hk a s1). destruct (k a s1) as [[s2 ev2] r]. simpl in *.
  rewrite forallb_app, Hm, Hk. reflexivity.
Qed.

Lemma emits_ret {A} (a : A) : emits_only P (ret a).
Proof. intros s. reflexivity. Qed.

Lemma emits_emit (e : event) : P e = true -> emits_only P (emit e).
Proof. intros H s. simpl. rewrite H. reflexivity. Qed.

Lemma emits_silent_steps (cl : Client) :
  emits_only P get /\ (forall d, emits_only P (set_data d)) /\
  emits_only P read_data /\ emits_only P (ticks_ms cl).
Proof.
  split; [intros s; reflexivity|split; [intros d s; reflexivity|split]];
    intros s; [|reflexivity].
  unfold read_data. destruct (u_data s); reflexivity.
Qed.

Lemma emits_update_metrics : emits_only P update_metrics.
Proof.
  destruct (emits_silent_steps (mkClient (fun _ => Raise) (fun _ => Raise)
              (fun _ => Raise) (fun _ => Raise) (fun _ => 0%Z)))
    as [Hg [Hs [Hr _]]].
  assert (Hu : forall f k, emits_only P (update_if f k)).
  { intros [v|] k; [|apply emits_ret].
    apply emits_bind; [exact Hr|intros d; apply Hs]. }
  unfold update_metrics. apply emits_bind; [exact Hg|intros st].
  repeat (apply emits_bind; [apply Hu|intros _]). apply Hu.
Qed.

Lemma emits_retry (act : M bool) (ok_msg fail_msg : string) (k : nat) :
  emits_only P act -> P ESleep = true -> (forall m, P (ELogInfo m) = true) ->
  emits_only P (retry_loop act ok_msg fail_msg k).
Proof.
  intros Ha Hs Hl. induction k as [|k IH]; simpl.
  - apply emits_emit, Hl.
  - apply emits_bind; [exact Ha|intros [|]].
    + apply emits_emit, Hl.
    + apply emits_bind; [apply emits_emit, Hs|intros _; exact IH].
Qed.

Lemma emits_location (cl : Client) :
  P ESleep = true -> (forall m, P (ELogInfo m) = true) ->
  P ECallLbs = true -> P ECallGnss = true ->
  emits_only P (sendLbs cl) /\ emits_only P (sendGnss cl).
Proof.
  intros Hs Hl HL HG. split; apply emits_retry; auto; intros s.
  - unfold qth_sendLbs. destruct (r_lbs cl (n_lbs s)); simpl; rewrite HL; reflexivity.
  - unfold qth_sendGnss. destruct (r_gnss cl (n_gnss s)); simpl; rewrite HG; reflexivity.
Qed.

Lemma emits_bind_tail {A B} (m : M A) (k : A -> M B) (s : UState) (l : list event) :
  snd (fst (m s)) = l -> (forall a, emits_only P (k a)) ->
  exists rest, snd (fst (bind m k s)) = l ++ rest /\ forallb P rest = true.
Proof.
  intros Hm Hk. unfold bind. destruct (m s) as [[s1 ev1] [a|e]]; simpl in *; subst ev1.
  - specialize (Hk a s1). destruct (k a s1) as [[s2 ev2] r].
    exists ev2. split; [reflexivity|exact Hk].
  - exists []. rewrite app_nil_r. split; reflexivity.
Qed.

(** [dispatch] calls [sendTsl(1, data)] first, whatever the client replies;
    what follows is logging and the location reports. *)
Lemma dispatch_events (cl : Client) (ts : Z) (d : payload) (s : UState) :
  P ESleep = true -> (forall m, P (ELogInfo m) = true) ->
  P ECallLbs = true -> P ECallGnss = true ->
  exists rest, snd (fst (dispatch cl ts d s)) = ECallTsl 1 d :: rest /\
    forallb P rest = true.
Proof.
  intros Hs Hl HL HG. destruct (emits_location cl Hs Hl HL HG) as [EL EG].
  unfold dispatch. refine (emits_bind_tail _ _ s [ECallTsl 1 d] _ _).
  - unfold qth_sendTsl. destruct (r_tsl cl (n_tsl s)); reflexivity.
  - intros _. apply emits_bind; [apply emits_emit, Hl|intros _].
    apply emits_bind; [destruct (ts mod 1800 =? 0)%Z|intros _].
    + apply emits_bind; [exact EL|intros _; apply emits_emit, Hl].
    + apply emits_ret.
    + destruct (ts mod 60 =? 0)%Z; [|apply emits_ret].
      apply emits_bind; [exact EG|intros _; apply emits_emit, Hl].
Qed.

Lemma emits_dispatch (cl : Client) (ts : Z) (d : payload) :
  P ESleep = true -> (forall m, P (ELogInfo m) = true) ->
  P ECallLbs = true -> P ECallGnss = true -> P (ECallTsl 1 d) = true ->
  emits_only P (dispatch cl ts d).
Proof.
  intros Hs Hl HL HG HT s.
  destruct (dispatch_events cl ts d s Hs Hl HL HG) as [rest [-> H]].
  simpl. rewrite HT. exact H.
Qed.

Lemma emits_tick_body (cl : Client) :
  P ESleep = true -> (forall m, P (ELogInfo m) = true) ->
  (forall m, P (ELogError m) = true) -> P ECallStatus = true ->
  P ECallLbs = true -> P ECallGnss = true -> (forall d, P (ECallTsl 1 d) = true) ->
  emits_only P (tick_body cl).
Proof.
  intros Hs Hl He HS HL HG HT.
  destruct (emits_silent_steps cl) as [Hg [Hd [Hr Ht]]].
  unfold tick_body. apply emits_bind.
  - intros s. unfold isStatusOk.
    destruct (r_status cl (n_status s)); simpl; rewrite HS; reflexivity.
  - intros [|]; [|apply emits_emit, He].
    apply emits_bind; [exact Ht|intros ms; cbv zeta].
    apply emits_bind; [destruct (ms / 1000 mod 5 =? 0)%Z|intros _].
    + apply emits_bind; [exact Hg|intros st; apply Hd].
    + apply emits_ret.
    + apply emits_bind; [destruct (ms / 1000 mod 1 =? 0)%Z|intros _].
      * apply emits_update_metrics.
      * apply emits_ret.
      * apply emits_bind; [exact Hr|intros d].
        apply emits_dispatch; auto.
Qed.
End Emits.

Lemma count_ev_cons (p : event -> bool) (e : event) (l : list event) :
  count_ev p (e :: l) = ((if p e then 1 else 0) + count_ev p l)%nat.
Proof. unfold count_ev. simpl. destruct (p e); reflexivity. Qed.

Lemma count_ev_none (p : event -> bool) (l : list event) :
  forallb (fun e => negb (p e)) l = true -> count_ev p l = 0%nat.
Proof.
  induction l as [|e l IH]; [reflexivity|]. simpl. intros H.
  apply andb_prop in H as [H1 H2]. rewrite count_ev_cons, (IH H2).
  destruct (p e); [discriminate|reflexivity].
Qed.

(** *** Properties of one steady-state tick *)

Lemma steady_tick_lock_bracket_events (cl : Client) (s : UState) :
  exists mid, snd (fst (steady_tick cl s)) = EAcquire :: mid ++ [ERelease; ESleep] /\
    forallb (fun e => negb (is_lock e)) mid = true.
Proof.
  pose proof (emits_tick_body (fun e => negb (is_lock e)) cl eq_refl
                (fun _ => eq_refl) (fun _ => eq_refl) eq_refl eq_refl eq_refl
                (fun _ => eq_refl) s) as H.
  rewrite steady_tick_spec. destruct (tick_body cl s) as [[s1 ev1] r]. simpl in H.
  exists (ev1 ++ match r with Ok _ => [] | Err e => [EPrint e] end). split.
  - simpl. rewrite <- app_assoc. reflexivity.
  - rewrite forallb_app, H. destruct r; reflexivity.
Qed.

(** Every iteration of the steady-state loop takes the data-set lock first
    and gives it back just before its one-second sleep, whatever the client
    replies or raises: no other lock event happens in between, and that
    sleep is taken with the lock released. *)
Theorem steady_tick_lock_bracket (cl : Client) (s : UState) :
  exists mid, snd (fst (steady_tick cl s)) = EAcquire :: mid ++ [ERelease; ESleep] /\
    forallb (fun e => negb (is_lock e)) mid = true.
Proof. exact (steady_tick_lock_bracket_events cl s). Qed.

Lemma steady_tick_counts (cl : Client) (s : UState) :
  let evs := snd (fst (steady_tick cl s)) in
  let ts := (r_ticks cl (n_ticks s) / 1000)%Z in
  count_ev is_status evs = 1%nat /\
  count_ev is_tsl evs =
    match r_status cl (n_status s) with
    | Reply true =>
        if (ts mod 5 =? 0)%Z then 1%nat
        else match u_data s with Some _ => 1%nat | None => 0%nat end
    | _ => 0%nat
    end.
Proof.
  intros evs ts. subst evs. rewrite steady_tick_spec.
  destruct (r_status cl (n_status s)) as [[|]|] eqn:H.
  - rewrite (tick_body_ready cl s H). fold ts. cbv zeta.
    destruct (ts mod 5 =? 0)%Z; [|destruct (u_data s) as [d|]];
      try (match goal with |- context [dispatch cl ts ?d ?st] =>
        destruct (dispatch_events (fun e => negb (is_tsl e)) cl ts d st eq_refl
                    (fun _ => eq_refl) eq_refl eq_refl) as [rest [Hr Ht]];
        destruct (dispatch_events (fun e => negb (is_status e)) cl ts d st eq_refl
                    (fun _ => eq_refl) eq_refl eq_refl) as [rest' [Hr' Hs]];
        rewrite Hr in Hr'; injection Hr' as <-;
        destruct (dispatch cl ts d st) as [[s2 ev2] r]; simpl in Hr; subst ev2 end);
      split; cbn [fst snd app]; rewrite !count_ev_cons; cbn [is_status is_tsl];
      try (rewrite !count_ev_app; rewrite ?(count_ev_none _ rest Ht),
             ?(count_ev_none _ rest Hs); destruct r);
      reflexivity.
  - rewrite (tick_body_not_ready cl s H). split; reflexivity.
  - rewrite (tick_body_status_raises cl s H). split; reflexivity.
Qed.

(** Each tick polls [isStatusOk] exactly once, and calls [sendTsl] at most
    once: exactly once when the status is ready and [data] is bound (the
    timestamp is a multiple of 5, or an earlier tick bound it), and never
    otherwise. *)
Theorem steady_tick_calls (cl : Client) (s : UState) :
  let evs := snd (fst (steady_tick cl s)) in
  let ts := (r_ticks cl (n_ticks s) / 1000)%Z in
  count_ev is_status evs = 1%nat /\
  count_ev is_tsl evs =
    match r_status cl (n_status s) with
    | Reply true =>
        if (ts mod 5 =? 0)%Z then 1%nat
        else match u_data s with Some _ => 1%nat | None => 0%nat end
    | _ => 0%nat
    end.
Proof. exact (steady_tick_counts cl s). Qed.

(** *** The payload a tick sends *)

Lemma add_field_get (f : pynum) (key k : Z) (d : payload) :
  dict_get k (add_field f key d) =
  if Z.eqb k key then match f with Some v => Some (PNum v) | None => dict_get k d end
  else dict_get k d.
Proof.
  destruct f as [v|]; simpl.
  - destruct (Z.eqb_spec k key) as [->|Hne].
    + apply dict_set_spec. exact key.
    + apply dict_set_spec, Hne.
  - destruct (k =? key)%Z; reflexivity.
Qed.

Lemma add_fields_get (ds : DataSet) (k : Z) (d : payload) :
  dict_get k (add_fields ds d) =
  match metric_key ds k with Some v => Some (PNum v) | None => dict_get k d end.
Proof.
  unfold add_fields, metric_key. rewrite !add_field_get.
  destruct (Z.eqb_spec k 3) as [->|H3]; [destruct (temp1 ds); reflexivity|].
  destruct (Z.eqb_spec k 4) as [->|H4]; [destruct (humi ds); reflexivity|].
  destruct (Z.eqb_spec k 5) as [->|H5]; [destruct (temp2 ds); reflexivity|].
  destruct (Z.eqb_spec k 6) as [->|H6]; [destruct (press ds); reflexivity|].
  reflexivity.
Qed.

(** A ready tick whose timestamp is a multiple of 5 sends a payload built
    afresh: key 7 holds the colour dictionary of this tick's [rgb888], each
    key 3 to 6 holds its metric when that metric is not [None] and is
    absent otherwise, and there is no other key; nothing of the previous
    [data] is kept. *)
Theorem steady_tick_fresh_payload (cl : Client) (s : UState) :
  r_status cl (n_status s) = Reply true ->
  ((r_ticks cl (n_ticks s) / 1000) mod 5 = 0)%Z ->
  exists d' rest,
    snd (fst (steady_tick cl s)) = EAcquire :: ECallStatus :: ECallTsl 1 d' :: rest /\
    (forall k, dict_get k d' =
       if Z.eqb k 7 then dict_get 7 (rgb_dict (rgb888 (u_ds s)))
       else option_map PNum (metric_key (u_ds s) k)).
Proof.
  intros H H5. rewrite steady_tick_spec, (tick_body_ready cl s H). cbv zeta.
  apply Z.eqb_eq in H5. rewrite H5. cbn beta iota.
  match goal with |- context [dispatch cl ?ts ?d ?st] =>
    destruct (dispatch_events (fun _ => true) cl ts d st eq_refl (fun _ => eq_refl)
                eq_refl eq_refl) as [rest [Hr _]];
    destruct (dispatch cl ts d st) as [[s2 ev2] r]; simpl in Hr; subst ev2 end.
  exists (add_fields (u_ds s) (rgb_dict (rgb888 (u_ds s)))). eexists. split.
  - cbn [fst snd app]. reflexivity.
  - intros k. rewrite add_fields_get.
    destruct (Z.eqb_spec k 7) as [->|H7]; [reflexivity|].
    unfold rgb_dict. cbn [dict_get].
    rewrite (proj2 (Z.eqb_neq 7 k) (not_eq_sym H7)).
    destruct (metric_key (u_ds s) k); reflexivity.
Qed.

Lemma steady_tick_fresh_payload_witness :
  exists d' rest,
    snd (fst (steady_tick (client_clock (fun _ => 5000%Z)) (UState_init ds_fresh))) =
    EAcquire :: ECallStatus :: ECallTsl 1 d' :: rest /\
    (forall k, dict_get k d' =
       if Z.eqb k 7 then dict_get 7 (rgb_dict (rgb888 ds_fresh))
       else option_map PNum (metric_key ds_fresh k)).
Proof.
  apply (steady_tick_fresh_payload (client_clock (fun _ => 5000%Z))
           (UState_init ds_fresh)); reflexivity.
Defined.

(** A ready tick whose timestamp is not a multiple of 5, with [data] bound
    to [d], sends [d] updated in place: each key 3 to 6 whose metric is not
    [None] in the data set carries that metric, and every other key,
    including a metric key whose field is [None] and the colour entry,
    keeps what [d] held. *)
Theorem steady_tick_reused_payload (cl : Client) (s : UState) (d : payload) :
  r_status cl (n_status s) = Reply true ->
  ((r_ticks cl (n_ticks s) / 1000) mod 5 <> 0)%Z ->
  u_data s = Some d ->
  exists d' rest,
    snd (fst (steady_tick cl s)) = EAcquire :: ECallStatus :: ECallTsl 1 d' :: rest /\
    (forall k, dict_get k d' =
       match metric_key (u_ds s) k with
       | Some v => Some (PNum v)
       | None => dict_get k d
       end).
Proof.
  intros H H5 Hd. rewrite steady_tick_spec, (tick_body_ready cl s H). cbv zeta.
  apply Z.eqb_neq in H5. rewrite H5, Hd. cbn beta iota.
  match goal with |- context [dispatch cl ?ts ?d ?st] =>
    destruct (dispatch_events (fun _ => true) cl ts d st eq_refl (fun _ => eq_refl)
                eq_refl eq_refl) as [rest [Hr _]];
    destruct (dispatch cl ts d st) as [[s2 ev2] r]; simpl in Hr; subst ev2 end.
  exists (add_fields (u_ds s) d). eexists. split.
  - cbn [fst snd app]. reflexivity.
  - intros k. apply add_fields_get.
Qed.

Lemma steady_tick_reused_payload_witness :
  exists d' rest,
    snd (fst (steady_tick (client_clock (fun _ => 6000%Z))
                (mkUState ds_quiet (Some (rgb_dict 0%Z ++ [(3%Z, PNum (f64 20 0))]))
                   0 0 0 0 0))) =
    EAcquire :: ECallStatus :: ECallTsl 1 d' :: rest /\
    (forall k, dict_get k d' =
       match metric_key ds_quiet k with
       | Some v => Some (PNum v)
       | None => dict_get k (rgb_dict 0%Z ++ [(3%Z, PNum (f64 20 0))])
       end).
Proof.
  apply (steady_tick_reused_payload (client_clock (fun _ => 6000%Z))
           (mkUState ds_quiet (Some (rgb_dict 0%Z ++ [(3%Z, PNum (f64 20 0))])) 0 0 0 0 0)
           (rgb_dict 0%Z ++ [(3%Z, PNum (f64 20 0))])).
  - reflexivity.
  - vm_compute. discriminate.
  - reflexivity.
Defined.

(** *** Location reports under the lock *)

(** A [dispatch] at a multiple of 1800 whose [sendTsl] returns and whose ten
    LBS attempts all fail: the ten failed attempts, each followed by a
    sleep, come right after the payload. *)
Lemma dispatch_lbs_all_fail (cl : Client) (ts : Z) (d : payload) (s : UState) :
  (ts mod 1800 = 0)%Z -> r_tsl cl (n_tsl s) <> Raise ->
  (forall i, (i < 10)%nat -> r_lbs cl (n_lbs s + i) = Reply false) ->
  exists rest, snd (fst (dispatch cl ts d s)) =
    ECallTsl 1 d :: ELogInfo "SensorDataUploader upload result" ::
    failed_attempts ECallLbs 10 ++ ELogInfo "upload LBS fail" :: rest.
Proof.
  intros H1800 Ht Hf.
  destruct (r_tsl cl (n_tsl s)) as [b|] eqn:Et; [|congruence].
  set (s1 := mkUState (u_ds s) (u_data s) (n_status s) (n_lbs s) (n_gnss s)
               (S (n_tsl s)) (n_ticks s)).
  unfold dispatch.
  rewrite (bind_Ok (qth_sendTsl cl 1 d) _ s s1 [ECallTsl 1 d] b)
    by (unfold qth_sendTsl; rewrite Et; reflexivity).
  cbv beta.
  rewrite (bind_Ok (log_info _) _ s1 s1 [ELogInfo "SensorDataUploader upload result"] tt
             eq_refl).
  cbv beta. apply Z.eqb_eq in H1800. rewrite H1800. cbn beta iota.
  destruct (retry_loop_all_fail _ n_lbs (r_lbs cl) ECallLbs (qth_sendLbs_spec cl)
              "upload LBS success" "upload LBS fail" 10 s1 Hf) as [s2 H2].
  assert (HL : (sendLbs cl ;; log_info "SensorDataUploader upload LBS result") s1 =
    (s2, (failed_attempts ECallLbs 10 ++ [ELogInfo "upload LBS fail"]) ++
         [ELogInfo "SensorDataUploader upload LBS result"], Ok tt)).
  { unfold sendLbs. rewrite (bind_Ok _ _ _ _ _ _ H2). reflexivity. }
  rewrite (bind_Ok (A:=unit) (B:=unit) _ _ _ _ _ _ HL).
  match goal with |- context [(if ?c then ?x else ?y) s2] =>
    destruct ((if c then x else y) s2) as [[s3 ev3] r3] end.
  eexists. cbn [fst snd]. rewrite <- !app_assoc. reflexivity.
Qed.

(** A ready tick at a timestamp that is a multiple of 1800, whose
    [sendTsl] returns and whose ten LBS attempts all fail, sleeps at least
    ten seconds while it holds the data-set lock, so the collector cannot
    sample in that time; the tick's own closing sleep comes on top, after
    the release. *)
Theorem steady_tick_sleeps_under_lock (cl : Client) (s : UState) :
  r_status cl (n_status s) = Reply true ->
  ((r_ticks cl (n_ticks s) / 1000) mod 1800 = 0)%Z ->
  r_tsl cl (n_tsl s) <> Raise ->
  (forall i, (i < 10)%nat -> r_lbs cl (n_lbs s + i) = Reply false) ->
  exists mid, snd (fst (steady_tick cl s)) = EAcquire :: mid ++ [ERelease; ESleep] /\
    forallb (fun e => negb (is_lock e)) mid = true /\
    (10 <= count_ev is_sleep mid)%nat.
Proof.
  intros H H1800 Ht Hf.
  pose proof (emits_tick_body (fun e => negb (is_lock e)) cl eq_refl
                (fun _ => eq_refl) (fun _ => eq_refl) eq_refl eq_refl eq_refl
                (fun _ => eq_refl) s) as Hlock.
  rewrite steady_tick_spec. rewrite (tick_body_ready cl s H) in *. cbv zeta in *.
  assert (H5 : ((r_ticks cl (n_ticks s) / 1000) mod 5 =? 0)%Z = true).
  { apply Z.eqb_eq, mod_60_mod_5, mod_1800_mod_60, H1800. }
  rewrite H5 in *. cbn beta iota in *.
  match goal with |- context [dispatch cl ?ts ?d ?st] =>
    destruct (dispatch_lbs_all_fail cl ts d st H1800 Ht Hf) as [rest Hr];
    destruct (dispatch cl ts d st) as [[s2 ev2] r]; cbn [fst snd] in Hr; subst ev2 end.
  cbn [fst snd] in *.
  exists (ECallStatus :: (ECallTsl 1 (add_fields (u_ds s) (rgb_dict (rgb888 (u_ds s))))
           :: ELogInfo "SensorDataUploader upload result"
           :: failed_attempts ECallLbs 10 ++ ELogInfo "upload LBS fail" :: rest)
           ++ match r with Ok _ => [] | Err e => [EPrint e] end).
  split; [|split].
  - cbn [app]. rewrite <- !app_assoc. reflexivity.
  - rewrite app_comm_cons, forallb_app, Hlock. destruct r; reflexivity.
  - cbn [app]. rewrite !count_ev_cons, !count_ev_app, count_failed_attempts.
    cbn. lia.
Qed.

Lemma steady_tick_sleeps_under_lock_witness :
  exists mid,
    snd (fst (steady_tick client_never_located (UState_init ds_fresh))) =
    EAcquire :: mid ++ [ERelease; ESleep] /\
    forallb (fun e => negb (is_lock e)) mid = true /\
    (10 <= count_ev is_sleep mid)%nat.
Proof.
  apply (steady_tick_sleeps_under_lock client_never_located (UState_init ds_fresh)).
  - reflexivity.
  - reflexivity.
  - discriminate.
  - intros i Hi. reflexivity.
Defined.

(** *** Exceptions before the steady-state loop *)

Section RetryRaise.
Variable act : M bool.
Variable cnt : UState -> nat.
Variable sel : nat -> reply.
Variable ev : event.
Hypothesis act_spec : forall s, exists s',
  cnt s' = S (cnt s) /\ act s = of_reply s' ev (sel (cnt s)).

End RetryRaise.








(** *** A sensor that keeps failing *)

(** A metric whose driver raises on every tick of a run keeps its field and
    its memo through the whole sampling loop: a sensor that is dead from
    boot leaves its field at the initial [0] (not [None]) and its memo
    unset, and one that dies later leaves its last field value in place. *)
Theorem collector_loop_dead_sensor (m : metric) sA sB sC (fuel : nat) :
  forall i c,
  (forall j, (j < fuel)%nat -> reading m (sA (i + j)%nat) (sB (i + j)%nat) = None) ->
  field_of m (fst (collector_loop sA sB sC i fuel c)) = field_of m c /\
  memo_of m (fst (collector_loop sA sB sC i fuel c)) = memo_of m c.
Proof. exact (collector_loop_keeps_metric m sA sB sC fuel). Qed.

Lemma collector_loop_dead_sensor_witness :
  field_of MTemp1 (fst (collector_loop (fun _ => None) (fun _ => Some (f64 1013 0, f64 21 0))
                          (fun _ => Some 255%Z) 0 5 (Collector_init DataSet_init))) =
    Some (S754_zero false) /\
  memo_of MTemp1 (fst (collector_loop (fun _ => None) (fun _ => Some (f64 1013 0, f64 21 0))
                         (fun _ => Some 255%Z) 0 5 (Collector_init DataSet_init))) =
    None.
Proof.
  apply (collector_loop_dead_sensor MTemp1 (fun _ => None)
           (fun _ => Some (f64 1013 0, f64 21 0)) (fun _ => Some 255%Z) 5 0
           (Collector_init DataSet_init)).
  intros j Hj. reflexivity.
Defined.

(** *** The steady-state loop as a whole *)

Lemma count_lock_free (l : list event) :
  forallb (fun e => negb (is_lock e)) l = true ->
  count_ev is_acquire l = 0%nat /\ count_ev is_release l = 0%nat.
Proof.
  intros H. split; apply count_ev_none; apply forallb_forall; intros x Hx;
    pose proof (proj1 (forallb_forall _ l) H x Hx) as Hl; destruct x; try discriminate; reflexivity.
Qed.

(** Over [fuel] iterations the steady-state loop polls [isStatusOk]
    exactly [fuel] times, calls [sendTsl] at most [fuel] times, and takes
    and releases the data-set lock [fuel] times each. *)
Theorem upload_loop_counts (cl : Client) (fuel : nat) :
  forall s, let evs := snd (fst (upload_loop cl fuel s)) in
  count_ev is_status evs = fuel /\ (count_ev is_tsl evs <= fuel)%nat /\
  count_ev is_acquire evs = fuel /\ count_ev is_release evs = fuel.
Proof.
  induction fuel as [|fuel IH]; intros s; [cbn; repeat split; lia|].
  cbv zeta. simpl upload_loop.
  pose proof (steady_tick_counts cl s) as [Hs Ht]. cbv zeta in Hs, Ht.
  destruct (steady_tick_lock_bracket_events cl s) as [mid [Hm Hl]].
  assert (Hok : snd (steady_tick cl s) = Ok tt).
  { rewrite steady_tick_spec. destruct (tick_body cl s) as [[s1 ev1] r]. reflexivity. }
  unfold bind.
  destruct (steady_tick cl s) as [[s1 ev1] r]. cbn [snd fst] in *. subst r.
  destruct (IH s1) as [IH1 [IH2 [IH3 IH4]]]. cbv zeta in IH1, IH2, IH3, IH4.
  destruct (upload_loop cl fuel s1) as [[s2 ev2] r2]. cbn [snd fst] in *.
  rewrite !count_ev_app, Hs, IH1. split; [reflexivity|split].
  - rewrite Ht. destruct (r_status cl (n_status s)) as [[|]|];
      [destruct (_ mod 5 =? 0)%Z; [|destruct (u_data s)]|..]; lia.
  - destruct (count_lock_free mid Hl) as [Ha Hr].
    rewrite IH3, IH4, Hm, !count_ev_cons, !count_ev_app, Ha, Hr.
    cbn. split; lia.
Qed.
